(** * Extension discovery and path probing of the CPython [setup.py] script

    A shallow embedding of the helper routines of the script
    ([set_compiler_flags], [add_dir_to_list], [macosx_sdk_root],
    [find_file], the tail of [find_library_file], and the methods
    [set_srcdir] and [remove_disabled] of [PyBuildExt]) together with the
    properties the specification states about them.

    Conventions of the embedding:
    - a Python [str] is a [string]; its characters are read as code points
      below 256;
    - a Python value that may be [None] is an [option];
    - a raised exception is the [Raise] branch of [Py.result], and module
      globals are threaded explicitly through the monad [Py.M];
    - the file system, the working directory and the compiler are read-only
      oracles collected in the record [Host]. *)

From Stdlib Require Import String Ascii ZArith Bool.
From stdpp Require Import base option list strings gmap.

(** ** Python values, exceptions and the state-and-error monad *)

Module Py.

(** The values a configuration variable can hold: [sysconfig] stores the
    text of a Makefile variable, or an [int] when the text is numeric. *)
Inductive value :=
| VStr (s : string)
| VInt (n : Z).

Inductive exn :=
| TypeError
| ValueError
| IndexError
| AttributeError
| AssertionError.

Inductive result (A : Type) :=
| Ok (a : A)
| Raise (e : exn).
Arguments Ok {A} a.
Arguments Raise {A} e.

(** Truth value of an object that is [None], a [str] or an [int]. *)
Definition truthy (v : option value) : bool :=
  match v with
  | None => false
  | Some (VStr s) => negb (String.eqb s "")
  | Some (VInt n) => negb (Z.eqb n 0)
  end.

(** The operator [+]: defined on two [str] and on two [int] operands. *)
Definition add (a b : option value) : result value :=
  match a, b with
  | Some (VStr x), Some (VStr y) => Ok (VStr (x +:+ y))
  | Some (VInt x), Some (VInt y) => Ok (VInt (x + y))
  | _, _ => Raise TypeError
  end.

(** [os.fspath] on the values above: only a [str] is path-like. *)
Definition fspath (v : option value) : result string :=
  match v with
  | Some (VStr s) => Ok s
  | _ => Raise TypeError
  end.

(** Computations over a state [S] that may raise.  The state reached when
    an exception is raised is kept: assignments made before a [raise]
    persist. *)
Definition M (S A : Type) : Type := S -> result A * S.

Definition ret {S A} (a : A) : M S A := fun s => (Ok a, s).

Definition raise {S A} (e : exn) : M S A := fun s => (Raise e, s).

Definition bind {S A B} (m : M S A) (k : A -> M S B) : M S B :=
  fun s =>
    match m s with
    | (Ok a, s') => k a s'
    | (Raise e, s') => (Raise e, s')
    end.

Definition get {S} : M S S := fun s => (Ok s, s).

Definition modify {S} (f : S -> S) : M S unit := fun s => (Ok tt, f s).

Definition lift {S A} (r : result A) : M S A := fun s => (r, s).

End Py.

Import Py.

Notation "x <- m ;; k" := (Py.bind m (fun x => k))
  (at level 100, m at next level, right associativity).
Notation "m ;;; k" := (Py.bind m (fun _ => k))
  (at level 100, right associativity).

(** ** String helpers: slicing, [startswith], [endswith], [rstrip] *)

Module Str.

(** [s[1:]] *)
Definition tail (s : string) : string :=
  match s with
  | EmptyString => ""
  | String _ t => t
  end.

(** [s.startswith(p)], returning what follows the prefix. *)
Fixpoint strip_prefix (p s : string) : option string :=
  match p, s with
  | EmptyString, _ => Some s
  | String a p', String b s' =>
      if Ascii.eqb a b then strip_prefix p' s' else None
  | String _ _, EmptyString => None
  end.

Definition startswith (s p : string) : bool :=
  match strip_prefix p s with
  | Some _ => true
  | None => false
  end.

(** [s.endswith(c)] for a one-character [c]. *)
Fixpoint ends_with_char (c : ascii) (s : string) : bool :=
  match s with
  | EmptyString => false
  | String a EmptyString => Ascii.eqb a c
  | String _ t => ends_with_char c t
  end.

(** [s.rstrip(c)] for a one-character [c]. *)
Fixpoint rstrip (c : ascii) (s : string) : string :=
  match s with
  | EmptyString => ""
  | String a t =>
      match rstrip c t with
      | EmptyString => if Ascii.eqb a c then "" else String a ""
      | t' => String a t'
      end
  end.

(** [s.split(c)] for a one-character separator. *)
Fixpoint split (c : ascii) (s : string) : list string :=
  match s with
  | EmptyString => [""]
  | String a t =>
      if Ascii.eqb a c then "" :: split c t
      else match split c t with
           | w :: ws => String a w :: ws
           | [] => [String a ""]
           end
  end.

(** [c.join(ws)] for a one-character separator. *)
Fixpoint join (c : ascii) (ws : list string) : string :=
  match ws with
  | [] => ""
  | [w] => w
  | w :: ws' => w +:+ String c (join c ws')
  end.

(** [s[:i]] where [i] is one past the last occurrence of [c] (0 when
    there is none): the value of [s[:s.rfind(c) + 1]]. *)
Fixpoint upto_last (c : ascii) (s : string) : string :=
  match s with
  | EmptyString => ""
  | String a t =>
      match upto_last c t with
      | EmptyString => if Ascii.eqb a c then String a "" else ""
      | t' => String a t'
      end
  end.

(** [s == c * len(s)] *)
Fixpoint all_char (c : ascii) (s : string) : bool :=
  match s with
  | EmptyString => true
  | String a t => Ascii.eqb a c && all_char c t
  end.

End Str.

(** ** [posixpath], the [os.path] of the platforms the script runs on *)

Module posixpath.

Definition sep : ascii := "/"%char.

Definition isabs (s : string) : bool := Str.startswith s "/".

(** One step of the loop of [join]: [path] extended by the component [b]. *)
Definition join2 (path b : string) : string :=
  if Str.startswith b "/" then b
  else if String.eqb path "" || Str.ends_with_char sep path then path +:+ b
  else path +:+ "/" +:+ b.

Definition join (a : string) (p : list string) : string :=
  fold_left join2 p a.

Definition dirname (p : string) : string :=
  let head := Str.upto_last sep p in
  if negb (String.eqb head "") && negb (Str.all_char sep head)
  then Str.rstrip sep head
  else head.

(** The loop of [normpath] over the components of the path. *)
Definition norm_step (initial_slashes : nat) (new_comps : list string)
    (comp : string) : list string :=
  if String.eqb comp "" || String.eqb comp "." then new_comps
  else if negb (String.eqb comp "..")
          || (Nat.eqb initial_slashes 0 && bool_decide (new_comps = []))
          || (match last new_comps with
              | Some c => String.eqb c ".."
              | None => false
              end)
  then new_comps ++ [comp]
  else removelast new_comps.

Definition normpath (path : string) : string :=
  if String.eqb path "" then "."
  else
    let initial_slashes :=
      if Str.startswith path "/" then
        if Str.startswith path "//" && negb (Str.startswith path "///")
        then 2 else 1
      else 0 in
    let comps := fold_left (norm_step initial_slashes) (Str.split sep path) [] in
    let body := Str.join sep comps in
    let path' :=
      match initial_slashes with
      | 0 => body
      | 1 => "/" +:+ body
      | _ => "//" +:+ body
      end in
    if String.eqb path' "" then "." else path'.

Definition abspath (cwd path : string) : string :=
  normpath (if isabs path then path else join cwd [path]).

End posixpath.

(** ** The pattern [-isysroot\s*(\S+)] *)

Module re.

(** [\s] on a [str] pattern: the characters for which [str.isspace]
    holds, here those below 256. *)
Definition is_space (c : ascii) : bool :=
  let n := nat_of_ascii c in
  (Nat.leb 9 n && Nat.leb n 13) || (Nat.leb 28 n && Nat.leb n 32)
  || Nat.eqb n 133 || Nat.eqb n 160.
Arguments is_space : simpl never.

(** [\s*] is greedy and [\S+] cannot start on a space, so the only way
    the rest of the pattern can match is after the whole run of spaces. *)
Fixpoint skip_space (s : string) : string :=
  match s with
  | EmptyString => ""
  | String c t => if is_space c then skip_space t else s
  end.

(** The longest run of non-space characters at the start of [s]: the
    text captured by the greedy group [(\S+)] when it is not empty. *)
Fixpoint take_nonspace (s : string) : string :=
  match s with
  | EmptyString => ""
  | String c t => if is_space c then "" else String c (take_nonspace t)
  end.

Fixpoint all_space (s : string) : bool :=
  match s with
  | EmptyString => true
  | String c t => is_space c && all_space t
  end.

Fixpoint no_space (s : string) : bool :=
  match s with
  | EmptyString => true
  | String c t => negb (is_space c) && no_space t
  end.

(** [s] is empty or starts with a space: a [\S+] run can end before it. *)
Definition at_boundary (s : string) : bool :=
  match s with
  | EmptyString => true
  | String c _ => is_space c
  end.

(** The match of the pattern anchored at the start of [s]: group 1. *)
Definition isysroot_at (s : string) : option string :=
  match Str.strip_prefix "-isysroot" s with
  | Some rest =>
      match take_nonspace (skip_space rest) with
      | EmptyString => None
      | g => Some g
      end
  | None => None
  end.

(** [re.search(r'-isysroot\s*(\S+)', s)]: group 1 of the leftmost match,
    [None] when no position matches. *)
Fixpoint search_isysroot (s : string) : option string :=
  match isysroot_at s with
  | Some g => Some g
  | None =>
      match s with
      | EmptyString => None
      | String _ t => search_isysroot t
      end
  end.

End re.

(** ** The host and the module globals *)

(** What the script reads from its environment and never writes.
    [is_macosx_sdk_path] is a helper of the script whose definition lies
    outside the routines modelled here; [default_sysroot] stands for
    [_osx_support._default_sysroot], which runs the compiler command and
    reads the root off its output; when the command fails there is no
    output to read and the call raises [AttributeError]. *)
Record Host := {
  MACOS : bool;
  path_exists : string -> bool;
  path_isdir : string -> bool;
  getcwd : string;
  default_sysroot : option value -> result string;
  is_macosx_sdk_path : string -> bool
}.

(** The module-level state: the [sysconfig] store of configuration
    variables, the two SDK globals, and the log of compiler runs made
    through [default_sysroot] (the [CC] value passed each time). *)
Record Globals := {
  config_vars : gmap string value;
  MACOS_SDK_ROOT : option string;
  MACOS_SDK_SPECIFIED : option bool;
  compiler_runs : list (option value)
}.

Definition set_config_var (k : string) (v : value) (g : Globals) : Globals :=
  {| config_vars := <[k := v]> (config_vars g);
     MACOS_SDK_ROOT := MACOS_SDK_ROOT g;
     MACOS_SDK_SPECIFIED := MACOS_SDK_SPECIFIED g;
     compiler_runs := compiler_runs g |}.

Definition set_sdk (root : string) (specified : bool) (g : Globals) : Globals :=
  {| config_vars := config_vars g;
     MACOS_SDK_ROOT := Some root;
     MACOS_SDK_SPECIFIED := Some specified;
     compiler_runs := compiler_runs g |}.

Definition log_compiler_run (cc : option value) (g : Globals) : Globals :=
  {| config_vars := config_vars g;
     MACOS_SDK_ROOT := MACOS_SDK_ROOT g;
     MACOS_SDK_SPECIFIED := MACOS_SDK_SPECIFIED g;
     compiler_runs := compiler_runs g ++ [cc] |}.

(** [sysconfig.get_config_var(name)]: [None] for a variable that is not set. *)
Definition get_config_var (name : string) : M Globals (option value) :=
  fun g => (Ok (config_vars g !! name), g).

(** ** [set_compiler_flags] *)

Definition set_compiler_flags (compiler_flags compiler_py_flags_nodist : string)
    : M Globals unit :=
  flags <- get_config_var compiler_flags ;;
  py_flags_nodist <- get_config_var compiler_py_flags_nodist ;;
  t <- Py.lift (Py.add flags (Some (VStr " "))) ;;
  v <- Py.lift (Py.add (Some t) py_flags_nodist) ;;
  Py.modify (set_config_var compiler_flags v).

(** ** [add_dir_to_list] *)

(** [l.insert(i, x)] for [i >= 0]: past the end it appends. *)
Definition list_insert_at {A} (i : nat) (x : A) (l : list A) : list A :=
  take i l ++ x :: drop i l.

(** The index at which the [for] loop of [add_dir_to_list] stops: that of
    the first path that is not absolute, counted from [i]. *)
Fixpoint first_relative (i : nat) (dirlist : list string) : option nat :=
  match dirlist with
  | [] => None
  | path :: rest =>
      if negb (posixpath.isabs path) then Some i
      else first_relative (S i) rest
  end.

(** The list [dirlist] is updated in place; the function returns its new
    contents. *)
Definition add_dir_to_list (h : Host) (dirlist : list string)
    (dir : option string) : list string :=
  match dir with
  | None => dirlist
  | Some d =>
      if negb (path_isdir h d) || bool_decide (d ∈ dirlist) then dirlist
      else
        match first_relative 0 dirlist with
        | Some i => list_insert_at (i + 1) d dirlist
        | None => list_insert_at 0 d dirlist
        end
  end.

(** ** [macosx_sdk_root] *)

Definition macosx_sdk_root (h : Host) : M Globals string :=
  g <- Py.get ;;
  match MACOS_SDK_ROOT g with
  | Some (String c r) => Py.ret (String c r)
  | _ =>
      cflags <- get_config_var "CFLAGS" ;;
      text <- Py.lift (Py.fspath cflags) ;;
      match re.search_isysroot text with
      | Some root =>
          Py.modify (set_sdk root (negb (String.eqb root "/"))) ;;;
          Py.ret root
      | None =>
          cc <- get_config_var "CC" ;;
          Py.modify (log_compiler_run cc) ;;;
          root <- Py.lift (default_sysroot h cc) ;;
          Py.modify (set_sdk root false) ;;;
          Py.ret root
      end
  end.

(** The test [if MACOS_SDK_ROOT:] on the cache: a root is cached when the
    global holds a non-empty string. *)
Definition sdk_cached (g : Globals) : bool :=
  match MACOS_SDK_ROOT g with
  | Some (String _ _) => true
  | _ => false
  end.

(** An [-isysroot] token of a text, read off the text itself: the word
    [-isysroot] after [pre], a run [ws] of spaces (possibly empty), and
    the path, a non-empty run of non-space characters that ends where
    [rest] begins, at a space or at the end of the text. *)
Definition isysroot_token (text pre ws path rest : string) : Prop :=
  text = pre +:+ "-isysroot" +:+ ws +:+ path +:+ rest /\
  re.all_space ws = true /\
  path <> "" /\
  re.no_space path = true /\
  re.at_boundary rest = true.

(** The leftmost token: no token of the text starts before it. *)
Definition leftmost_token (text pre ws path rest : string) : Prop :=
  isysroot_token text pre ws path rest /\
  forall pre' ws' path' rest',
    isysroot_token text pre' ws' path' rest' ->
    String.length pre <= String.length pre'.

(** The first statement of [find_file] and of [find_library_file]:
    [sysroot] is bound on macOS only, and read only there. *)
Definition bind_sysroot (h : Host) : M Globals (option string) :=
  if MACOS h then root <- macosx_sdk_root h ;; Py.ret (Some root)
  else Py.ret None.

(** ** [find_file] *)

(** The path [f] whose existence is tested for the directory [dir]. *)
Definition probe (h : Host) (sysroot : option string) (filename dir : string)
    : string :=
  let f := posixpath.join dir [filename] in
  match sysroot with
  | Some root =>
      if is_macosx_sdk_path h dir
      then posixpath.join root [Str.tail dir; filename]
      else f
  | None => f
  end.

(** One of the two [for] loops: the directory at which the loop returns. *)
Fixpoint first_hit (h : Host) (sysroot : option string) (filename : string)
    (dirs : list string) : option string :=
  match dirs with
  | [] => None
  | dir :: rest =>
      if path_exists h (probe h sysroot filename dir) then Some dir
      else first_hit h sysroot filename rest
  end.

Definition find_file (h : Host) (filename : string)
    (std_dirs paths : list string) : M Globals (option (list string)) :=
  sysroot <- bind_sysroot h ;;
  match first_hit h sysroot filename std_dirs with
  | Some _ => Py.ret (Some [])
  | None =>
      match first_hit h sysroot filename paths with
      | Some dir => Py.ret (Some [dir])
      | None => Py.ret None
      end
  end.

(** ** [find_library_file], from the point where the compiler has located
    the library at the path [result] *)

(** The tests made on one entry [p] of a directory list, after
    [p = p.rstrip(os.sep)]: whether the body of the loop returns. *)
Definition dir_matches (h : Host) (sysroot : option string)
    (dirname p : string) : bool :=
  if match sysroot with
     | Some root =>
         if is_macosx_sdk_path h p
         then String.eqb (posixpath.join root [Str.tail p]) dirname
         else false
     | None => false
     end
  then true
  else String.eqb p dirname.

(** One of the two [for] loops: the stripped entry at which it returns. *)
Fixpoint first_match (h : Host) (sysroot : option string) (dirname : string)
    (dirs : list string) : option string :=
  match dirs with
  | [] => None
  | p :: rest =>
      let p := Str.rstrip posixpath.sep p in
      if dir_matches h sysroot dirname p then Some p
      else first_match h sysroot dirname rest
  end.

Definition find_library_file (h : Host) (result : string)
    (std_dirs paths : list string) : M Globals (list string) :=
  sysroot <- bind_sysroot h ;;
  let dirname := posixpath.dirname result in
  match first_match h sysroot dirname std_dirs with
  | Some _ => Py.ret []
  | None =>
      match first_match h sysroot dirname paths with
      | Some p => Py.ret [p]
      | None => Py.raise AssertionError
      end
  end.

(** ** [PyBuildExt] *)

(** An extension descriptor; the script reads its [name] only. *)
Record Extension := {
  name : string;
  sources : list string;
  include_dirs : list string;
  library_dirs : list string;
  extra_compile_args : list string
}.

(** The attributes of the command object that the two methods touch. *)
Record PyBuildExt := {
  srcdir : option value;
  extensions : list Extension
}.

Definition set_srcdir_attr (v : option value) (self : PyBuildExt) : PyBuildExt :=
  {| srcdir := v; extensions := extensions self |}.

Definition set_extensions_attr (exts : list Extension) (self : PyBuildExt)
    : PyBuildExt :=
  {| srcdir := srcdir self; extensions := exts |}.

(** [set_srcdir]: [vars] is the [sysconfig] store, which the method reads. *)
Definition set_srcdir (h : Host) (vars : gmap string value) : M PyBuildExt unit :=
  Py.modify (set_srcdir_attr (vars !! "srcdir")) ;;;
  self <- Py.get ;;
  if negb (Py.truthy (srcdir self)) then Py.raise ValueError
  else
    path <- Py.lift (Py.fspath (srcdir self)) ;;
    Py.modify
      (set_srcdir_attr (Some (VStr (posixpath.abspath (getcwd h) path)))).

(** [enumerate(l)] *)
Definition enumerate {A} (l : list A) : list (nat * A) :=
  imap (fun i x => (i, x)) l.

(** [dict(items)]: a later item replaces an earlier one with the same key. *)
Definition dict {V} (items : list (string * V)) : gmap string V :=
  foldl (fun m kv => <[kv.1 := kv.2]> m) ∅ items.

(** [l.pop(i)] for [i >= 0]: the element and the list without it, or
    [IndexError]. *)
Definition pop {A} (i : nat) (l : list A) : option (A * list A) :=
  match l !! i with
  | Some x => Some (x, delete i l)
  | None => None
  end.

(** [dict((ext.name, i) for i, ext in enumerate(extensions))] *)
Definition ext_map (extensions : list Extension) : gmap string nat :=
  dict ((fun ie => (name ie.2, ie.1)) <$> enumerate extensions).

(** [remove_disabled]: [DISABLED_MODULE_LIST] is the global list of the
    script, which the method reads. *)
Definition remove_disabled (DISABLED_MODULE_LIST : list string)
    : M PyBuildExt unit :=
  self <- Py.get ;;
  let extensions0 :=
    filter (fun ext => name ext ∉ DISABLED_MODULE_LIST) (extensions self) in
  extensions1 <-
    match ext_map extensions0 !! "_ctypes" with
    | Some i =>
        match pop i extensions0 with
        | Some (ctypes, rest) => Py.ret (rest ++ [ctypes])
        | None => Py.raise IndexError
        end
    | None => Py.ret extensions0
    end ;;
  Py.modify (set_extensions_attr extensions1).

(** ** Sample hosts and states for the worked examples *)

Definition file_set (files : list string) : string -> bool :=
  fun p => bool_decide (p ∈ files).

Definition linux_host : Host := {|
  MACOS := false;
  path_exists := file_set ["/opt/lib/include/foo.h"; "/usr/include/zlib.h"];
  path_isdir := file_set ["/usr/include"; "/usr/local/lib"; "/opt/lib/include"];
  getcwd := "/build/cpython";
  default_sysroot := fun _ => Ok "/";
  is_macosx_sdk_path := fun _ => false
|}.

Definition darwin_host : Host := {|
  MACOS := true;
  path_exists := file_set ["/SDKs/MacOSX.sdk/usr/include/zlib.h";
                           "/opt/lib/include/foo.h"];
  path_isdir := file_set ["/SDKs/MacOSX.sdk/usr/include"; "/opt/lib/include"];
  getcwd := "/Users/dev/cpython";
  default_sysroot := fun _ => Ok "/SDKs/MacOSX.sdk";
  is_macosx_sdk_path := fun p =>
    (Str.startswith p "/usr/" && negb (Str.startswith p "/usr/local"))
    || Str.startswith p "/System/Library"
    || Str.startswith p "/System/iOSSupport"
|}.

(** A macOS host on which the compiler command fails. *)
Definition darwin_host_no_compiler : Host := {|
  MACOS := true;
  path_exists := path_exists darwin_host;
  path_isdir := path_isdir darwin_host;
  getcwd := getcwd darwin_host;
  default_sysroot := fun _ => Raise AttributeError;
  is_macosx_sdk_path := is_macosx_sdk_path darwin_host
|}.

(** A fresh module state over the given configuration variables. *)
Definition fresh (vars : list (string * value)) : Globals := {|
  config_vars := dict vars;
  MACOS_SDK_ROOT := None;
  MACOS_SDK_SPECIFIED := None;
  compiler_runs := []
|}.

Definition ext (n : string) : Extension := {|
  name := n;
  sources := [n +:+ "module.c"];
  include_dirs := [];
  library_dirs := [];
  extra_compile_args := []
|}.

Definition build (exts : list Extension) : PyBuildExt :=
  {| srcdir := None; extensions := exts |}.

(** ** More of the script: the platform, [sysroot_paths],
    [macosx_sdk_specified] and [PyBuildExt.add] *)

Module Text.

(** [needle in s] on two [str]. *)
Fixpoint contains (needle s : string) : bool :=
  if Str.startswith s needle then true
  else match s with
       | EmptyString => false
       | String _ t => contains needle t
       end.

(** [s.lstrip(c)] for a one-character [c]. *)
Fixpoint lstrip (c : ascii) (s : string) : string :=
  match s with
  | EmptyString => ""
  | String a t => if Ascii.eqb a c then lstrip c t else s
  end.

(** [s.strip(c)] for a one-character [c]. *)
Definition strip (c : ascii) (s : string) : string :=
  lstrip c (Str.rstrip c s).

(** [s] cut at the first occurrence of [c]: what is before it and what is
    after it; [None] when [c] does not occur. *)
Fixpoint split_at (c : ascii) (s : string) : option (string * string) :=
  match s with
  | EmptyString => None
  | String a t =>
      if Ascii.eqb a c then Some ("", t)
      else match split_at c t with
           | Some (b, r) => Some (String a b, r)
           | None => None
           end
  end.

(** No character of [s] is [c]. *)
Fixpoint free_of (c : ascii) (s : string) : bool :=
  match s with
  | EmptyString => true
  | String a t => negb (Ascii.eqb a c) && free_of c t
  end.

End Text.

(** What the script reads of the process when it is loaded. *)
Record Process := {
  environ : gmap string string;
  sys_platform : string
}.

Module platform.

Definition get_platform (p : Process) : string :=
  match environ p !! "_PYTHON_HOST_PLATFORM" with
  | Some host => host
  | None =>
      if Str.startswith (sys_platform p) "osf1" then "osf1"
      else sys_platform p
  end.

Definition CROSS_COMPILING (p : Process) : bool :=
  bool_decide (is_Some (environ p !! "_PYTHON_HOST_PLATFORM")).

Definition HOST_PLATFORM (p : Process) : string := get_platform p.

Definition MS_WINDOWS (p : Process) : bool := String.eqb (HOST_PLATFORM p) "win32".

Definition CYGWIN (p : Process) : bool := String.eqb (HOST_PLATFORM p) "cygwin".

Definition MACOS (p : Process) : bool := String.eqb (HOST_PLATFORM p) "darwin".

Definition AIX (p : Process) : bool := Str.startswith (HOST_PLATFORM p) "aix".

Definition VXWORKS (p : Process) : bool := Text.contains "vxworks" (HOST_PLATFORM p).

End platform.

(** ** The pattern [--sysroot=([^"]\S*|"[^"]+")] *)

Module sysroot_re.

Definition quote : ascii := "034"%char.

(** The match of the pattern anchored at the start of [s]: group 1.  The
    first alternative is tried first and takes any character but a quote,
    then the longest run of non-space characters; on a quote only the
    second alternative can match, and it needs a closing quote after at
    least one character. *)
Definition sysroot_at (s : string) : option string :=
  match Str.strip_prefix "--sysroot=" s with
  | Some (String c t) =>
      if Ascii.eqb c quote then
        match Text.split_at quote t with
        | Some (String b body, _) =>
            Some (String quote (String b body +:+ String quote ""))
        | _ => None
        end
      else Some (String c (re.take_nonspace t))
  | _ => None
  end.

(** [re.search] of the pattern: group 1 of the leftmost match. *)
Fixpoint search_sysroot (s : string) : option string :=
  match sysroot_at s with
  | Some g => Some g
  | None =>
      match s with
      | EmptyString => None
      | String _ t => search_sysroot t
      end
  end.

End sysroot_re.

(** ** [sysroot_paths] *)

(** The inner loop: the sub-directories of [sysroot] that exist. *)
Fixpoint sysroot_subdirs (h : Host) (sysroot : string) (subdirs : list string)
    : list string :=
  match subdirs with
  | [] => []
  | subdir :: rest =>
      let subdir :=
        if posixpath.isabs subdir then Str.tail subdir else subdir in
      let path := posixpath.join sysroot [subdir] in
      if path_isdir h path then path :: sysroot_subdirs h sysroot rest
      else sysroot_subdirs h sysroot rest
  end.

(** The outer loop stops at the first variable whose text has a match;
    [re.search] raises [TypeError] on a value that is not a [str]. *)
Fixpoint sysroot_paths (h : Host) (make_vars subdirs : list string)
    : M Globals (list string) :=
  match make_vars with
  | [] => Py.ret []
  | var_name :: rest =>
      var <- get_config_var var_name ;;
      match var with
      | None => sysroot_paths h rest subdirs
      | Some _ =>
          text <- Py.lift (Py.fspath var) ;;
          match sysroot_re.search_sysroot text with
          | Some g =>
              let sysroot := Text.strip sysroot_re.quote g in
              Py.ret (sysroot_subdirs h sysroot subdirs)
          | None => sysroot_paths h rest subdirs
          end
      end
  end.

(** Whether the loop of [sysroot_paths] passes over a variable: it is
    unset, or its text has no [--sysroot=] option. *)
Definition passed_over (g : Globals) (var_name : string) : Prop :=
  config_vars g !! var_name = None \/
  exists text, config_vars g !! var_name = Some (VStr text) /\
    sysroot_re.search_sysroot text = None.

(** ** [macosx_sdk_specified] *)

Definition macosx_sdk_specified (h : Host) : M Globals (option bool) :=
  g <- Py.get ;;
  match MACOS_SDK_SPECIFIED g with
  | Some true => Py.ret (Some true)
  | _ =>
      macosx_sdk_root h ;;;
      g' <- Py.get ;;
      Py.ret (MACOS_SDK_SPECIFIED g')
  end.

(** ** [PyBuildExt.add] *)

Definition add (ext : Extension) : M PyBuildExt unit :=
  Py.modify (fun self => set_extensions_attr (extensions self ++ [ext]) self).

(** The SDK globals agree: the SDK counts as specified only with a cached
    root other than ['/']. *)
Definition sdk_consistent (g : Globals) : Prop :=
  MACOS_SDK_SPECIFIED g = Some true ->
  exists root, MACOS_SDK_ROOT g = Some root /\ root <> "" /\ root <> "/".


(** * Worked examples *)

Example split_components :
  Str.split "/" "/usr//lib/" = [""; "usr"; ""; "lib"; ""].
Proof. reflexivity. Qed.

Example rstrip_separators : Str.rstrip "/" "/usr/lib//" = "/usr/lib".
Proof. reflexivity. Qed.

Example dirname_of_library : posixpath.dirname "/usr/lib/libz.so" = "/usr/lib".
Proof. reflexivity. Qed.

Example dirname_keeps_root : posixpath.dirname "//libz.so" = "//".
Proof. reflexivity. Qed.

Example normpath_collapses : posixpath.normpath "/a/./b/../c//" = "/a/c".
Proof. vm_compute. reflexivity. Qed.

Example abspath_of_relative :
  posixpath.abspath "/build/py" "../src" = "/build/src".
Proof. vm_compute. reflexivity. Qed.

Example search_finds_token :
  re.search_isysroot "-O2 -isysroot /SDKs/MacOSX.sdk -g" = Some "/SDKs/MacOSX.sdk".
Proof. reflexivity. Qed.

Example search_needs_a_path : re.search_isysroot "-O2 -isysroot   " = None.
Proof. reflexivity. Qed.

Example search_without_space : re.search_isysroot "-isysroot/ -Wall" = Some "/".
Proof. reflexivity. Qed.

(** The end-to-end scenario of the specification. *)
Example remove_disabled_scenario :
  remove_disabled ["_tkinter"]
    (build [ext "_socket"; ext "_tkinter"; ext "_ctypes"])
  = (Ok tt, build [ext "_socket"; ext "_ctypes"]).
Proof. vm_compute. reflexivity. Qed.

Example remove_disabled_moves_ctypes :
  remove_disabled ["_tkinter"]
    (build [ext "_ctypes"; ext "_socket"; ext "_tkinter"; ext "zlib"])
  = (Ok tt, build [ext "_socket"; ext "zlib"; ext "_ctypes"]).
Proof. vm_compute. reflexivity. Qed.

(** With two descriptors named [_ctypes], the dictionary keeps the index
    of the later one, and that one is moved. *)
Example remove_disabled_two_ctypes :
  name <$> extensions
    (remove_disabled []
       (build [ext "_ctypes"; ext "_socket"; ext "_ctypes"; ext "zlib"])).2
  = ["_ctypes"; "_socket"; "zlib"; "_ctypes"].
Proof. vm_compute. reflexivity. Qed.

(** The [find_file] example of the specification. *)
Example find_file_additional :
  (find_file linux_host "foo.h" ["/usr/include"] ["/opt/lib/include"]
     (fresh [])).1
  = Ok (Some ["/opt/lib/include"]).
Proof. vm_compute. reflexivity. Qed.

Example find_file_in_sdk :
  (find_file darwin_host "zlib.h" ["/usr/include"] ["/opt/lib/include"]
     (fresh [("CFLAGS", VStr "-O2 -isysroot /SDKs/MacOSX.sdk")])).1
  = Ok (Some []).
Proof. vm_compute. reflexivity. Qed.

Example find_file_nowhere :
  (find_file linux_host "bar.h" ["/usr/include"] ["/opt/lib/include"]
     (fresh [])).1
  = Ok None.
Proof. vm_compute. reflexivity. Qed.

(** With no [-isysroot] token the root comes from the compiler; when the
    compiler command fails the call raises, and so does the lookup. *)
Example macosx_sdk_root_compiler_fails :
  macosx_sdk_root darwin_host_no_compiler
    (fresh [("CFLAGS", VStr "-O2"); ("CC", VStr "clang")])
  = (Raise AttributeError,
     log_compiler_run (Some (VStr "clang"))
       (fresh [("CFLAGS", VStr "-O2"); ("CC", VStr "clang")])).
Proof. vm_compute. reflexivity. Qed.

Example find_file_compiler_fails :
  (find_file darwin_host_no_compiler "zlib.h" ["/usr/include"] []
     (fresh [("CFLAGS", VStr "-O2")])).1
  = Raise AttributeError.
Proof. vm_compute. reflexivity. Qed.

(** On macOS the lookup needs the SDK root, and resolving it needs the
    text of [CFLAGS]. *)
Example find_file_without_cflags :
  (find_file darwin_host "zlib.h" ["/usr/include"] [] (fresh [])).1
  = Raise TypeError.
Proof. vm_compute. reflexivity. Qed.

Example find_library_file_in_sdk :
  (find_library_file darwin_host "/SDKs/MacOSX.sdk/usr/lib/libedit.tbd"
     ["/usr/lib/"] ["/opt/lib"]
     (fresh [("CFLAGS", VStr "-O2"); ("CC", VStr "clang")])).1
  = Ok [].
Proof. vm_compute. reflexivity. Qed.

Example find_library_file_additional :
  (find_library_file linux_host "/opt/lib/libfoo.so" ["/usr/lib/"]
     ["/opt/lib//"] (fresh [])).1
  = Ok ["/opt/lib"].
Proof. vm_compute. reflexivity. Qed.

Example find_library_file_elsewhere :
  (find_library_file linux_host "/home/libfoo.so" ["/usr/lib/"] ["/opt/lib//"]
     (fresh [])).1
  = Raise AssertionError.
Proof. vm_compute. reflexivity. Qed.

Example add_dir_after_first_relative :
  add_dir_to_list linux_host ["."; "/usr/lib"; "rel"] (Some "/usr/local/lib")
  = ["."; "/usr/local/lib"; "/usr/lib"; "rel"].
Proof. vm_compute. reflexivity. Qed.

Example add_dir_in_front :
  add_dir_to_list linux_host ["/a"; "/usr/lib"] (Some "/usr/local/lib")
  = ["/usr/local/lib"; "/a"; "/usr/lib"].
Proof. vm_compute. reflexivity. Qed.

Example add_dir_rejects_missing :
  add_dir_to_list linux_host ["/a"; "/usr/lib"] (Some "/nonexistent")
  = ["/a"; "/usr/lib"].
Proof. vm_compute. reflexivity. Qed.

(** Repeating [set_compiler_flags] appends again: the routine itself does
    not guard against it. *)
Example set_compiler_flags_twice :
  let g := fresh [("CFLAGS", VStr "-O2"); ("PY_CFLAGS_NODIST", VStr "-flto")] in
  let once := (set_compiler_flags "CFLAGS" "PY_CFLAGS_NODIST" g).2 in
  let twice := (set_compiler_flags "CFLAGS" "PY_CFLAGS_NODIST" once).2 in
  config_vars twice !! "CFLAGS" = Some (VStr "-O2 -flto -flto").
Proof. vm_compute. reflexivity. Qed.

Example set_compiler_flags_unset :
  (set_compiler_flags "CFLAGS" "PY_CFLAGS_NODIST"
     (fresh [("CFLAGS", VStr "-O2")])).1
  = Raise TypeError.
Proof. vm_compute. reflexivity. Qed.

(** * Properties *)

(** ** Strings *)

Lemma app_cons c a b : String c a +:+ b = String c (a +:+ b).
Proof. reflexivity. Qed.

Lemma app_nil_l b : "" +:+ b = b.
Proof. reflexivity. Qed.

Lemma string_app_length a b :
  String.length (a +:+ b) = String.length a + String.length b.
Proof. induction a as [|c a IH]; [done|]. rewrite app_cons. cbn. by rewrite IH. Qed.

Lemma string_app_assoc a b c : (a +:+ b) +:+ c = a +:+ (b +:+ c).
Proof. induction a as [|x a IH]; [done|]. rewrite !app_cons. by rewrite IH. Qed.

Lemma strip_prefix_app p s : Str.strip_prefix p (p +:+ s) = Some s.
Proof.
  induction p as [|c p IH]; [done|]. rewrite app_cons. cbn.
  by rewrite Ascii.eqb_refl.
Qed.

Lemma strip_prefix_Some p s r : Str.strip_prefix p s = Some r -> s = p +:+ r.
Proof.
  revert s. induction p as [|c p IH]; intros s H; cbn in H.
  - by inversion H.
  - destruct s as [|b s]; [done|].
    destruct (Ascii.eqb_spec c b) as [->|]; [|done].
    rewrite app_cons. f_equal. by apply IH.
Qed.

(** ** [posixpath]: absolute paths stay absolute *)

Lemma isabs_inv s : posixpath.isabs s = true -> exists t, s = String "/" t.
Proof.
  unfold posixpath.isabs, Str.startswith.
  destruct s as [|c t]; cbn [Str.strip_prefix]; [done|].
  destruct (Ascii.eqb_spec "/" c) as [<-|]; [|done]. by exists t.
Qed.

Lemma isabs_app a b :
  posixpath.isabs a = true -> posixpath.isabs (a +:+ b) = true.
Proof. by intros [t ->]%isabs_inv. Qed.

Lemma isabs_join2 a b :
  posixpath.isabs a = true -> posixpath.isabs (posixpath.join2 a b) = true.
Proof.
  intros Ha. unfold posixpath.join2.
  destruct (Str.startswith b "/") eqn:Hb; [done|].
  destruct (_ || _); by apply isabs_app.
Qed.

Lemma isabs_normpath p :
  posixpath.isabs p = true -> posixpath.isabs (posixpath.normpath p) = true.
Proof.
  intros [t ->]%isabs_inv. unfold posixpath.normpath.
  change (String.eqb (String "/" t) "") with false. cbv iota.
  change (Str.startswith (String "/" t) "/") with true. cbv iota.
  destruct (Str.startswith (String "/" t) "//"
            && negb (Str.startswith (String "/" t) "///"));
    cbv zeta iota; done.
Qed.

Lemma isabs_abspath cwd path :
  posixpath.isabs cwd = true ->
  posixpath.isabs (posixpath.abspath cwd path) = true.
Proof.
  intros Hcwd. unfold posixpath.abspath. apply isabs_normpath.
  destruct (posixpath.isabs path) eqn:Hp; [done|]. by apply isabs_join2.
Qed.

(** ** The [-isysroot] pattern *)

Lemma skip_space_app ws s :
  re.all_space ws = true -> re.skip_space (ws +:+ s) = re.skip_space s.
Proof.
  induction ws as [|c ws IH]; [done|]. cbn. intros [Hc Hws]%andb_true_iff.
  rewrite app_cons. cbn. rewrite Hc. auto.
Qed.

Lemma skip_space_split s :
  exists ws, s = ws +:+ re.skip_space s /\ re.all_space ws = true.
Proof.
  induction s as [|c s [ws [IH1 IH2]]].
  - by exists "".
  - cbn. destruct (re.is_space c) eqn:Hc.
    + exists (String c ws). rewrite app_cons, <- IH1. cbn. by rewrite Hc.
    + by exists "".
Qed.

Lemma skip_space_no_space p rest :
  re.no_space p = true -> p <> "" -> re.skip_space (p +:+ rest) = p +:+ rest.
Proof.
  destruct p as [|c p]; [done|]. cbn. intros [Hc _]%andb_true_iff _.
  rewrite app_cons. cbn. by destruct (re.is_space c).
Qed.

Lemma take_nonspace_split s :
  exists rest, s = re.take_nonspace s +:+ rest /\
    re.no_space (re.take_nonspace s) = true /\
    re.at_boundary rest = true.
Proof.
  induction s as [|c s [rest (IH1 & IH2 & IH3)]].
  - by exists "".
  - cbn. destruct (re.is_space c) eqn:Hc.
    + exists (String c s). cbn. by rewrite Hc.
    + exists rest. rewrite app_cons, <- IH1. cbn. by rewrite Hc.
Qed.

Lemma take_nonspace_app p rest :
  re.no_space p = true -> re.at_boundary rest = true ->
  re.take_nonspace (p +:+ rest) = p.
Proof.
  intros Hp Hr. induction p as [|c p IH].
  - rewrite app_nil_l. destruct rest as [|c rest]; [done|]. cbn in *.
    by rewrite Hr.
  - cbn in Hp. apply andb_true_iff in Hp as [Hc Hp]. rewrite app_cons. cbn.
    destruct (re.is_space c); [done|]. by rewrite IH.
Qed.

Lemma take_nonspace_app_ne p rest :
  re.no_space p = true -> p <> "" -> re.take_nonspace (p +:+ rest) <> "".
Proof.
  destruct p as [|c p]; [done|]. cbn. intros [Hc _]%andb_true_iff _.
  rewrite app_cons. cbn. by destruct (re.is_space c).
Qed.

(** Group 1 of a match anchored at the start of [s] is a non-empty run of
    non-space characters that follows [-isysroot] and a run of spaces. *)
Lemma isysroot_at_Some s p :
  re.isysroot_at s = Some p ->
  exists ws rest,
    s = "-isysroot" +:+ ws +:+ p +:+ rest /\
    re.all_space ws = true /\ p <> "" /\ re.no_space p = true /\
    re.at_boundary rest = true.
Proof.
  unfold re.isysroot_at. intros H.
  destruct (Str.strip_prefix "-isysroot" s) as [r|] eqn:Hpre; [|done].
  apply strip_prefix_Some in Hpre as ->.
  destruct (skip_space_split r) as (ws & Hr & Hws).
  destruct (take_nonspace_split (re.skip_space r)) as (rest & Hs & Hns & Hb).
  destruct (re.take_nonspace (re.skip_space r)) as [|c g] eqn:Hg; [done|].
  inversion H; subst p. exists ws, rest.
  split; [|done]. by rewrite <- Hs, <- Hr.
Qed.

(** An anchored token is matched, and its whole path is the group. *)
Lemma isysroot_at_token ws p rest :
  re.all_space ws = true -> re.no_space p = true -> p <> "" ->
  re.at_boundary rest = true ->
  re.isysroot_at ("-isysroot" +:+ ws +:+ p +:+ rest) = Some p.
Proof.
  intros Hws Hp Hne Hb. unfold re.isysroot_at. rewrite strip_prefix_app.
  rewrite (skip_space_app _ _ Hws), (skip_space_no_space _ _ Hp Hne).
  rewrite (take_nonspace_app _ _ Hp Hb). by destruct p.
Qed.

Lemma isysroot_at_token_is_Some ws p rest :
  re.all_space ws = true -> re.no_space p = true -> p <> "" ->
  is_Some (re.isysroot_at ("-isysroot" +:+ ws +:+ p +:+ rest)).
Proof.
  intros Hws Hp Hne. unfold re.isysroot_at. rewrite strip_prefix_app.
  rewrite (skip_space_app _ _ Hws), (skip_space_no_space _ _ Hp Hne).
  pose proof (take_nonspace_app_ne p rest Hp Hne) as Hg.
  destruct (re.take_nonspace (p +:+ rest)); [done|]. by eexists.
Qed.

Lemma search_isysroot_here s g :
  re.isysroot_at s = Some g -> re.search_isysroot s = Some g.
Proof.
  intros H. destruct s as [|c s]; [by vm_compute in H|].
  cbn [re.search_isysroot]. by rewrite H.
Qed.

(** What [search_isysroot] returns is the path of a [-isysroot] token of
    the text. *)
Lemma search_isysroot_Some s p :
  re.search_isysroot s = Some p ->
  exists pre ws rest,
    s = pre +:+ "-isysroot" +:+ ws +:+ p +:+ rest /\
    re.all_space ws = true /\ p <> "" /\ re.no_space p = true /\
    re.at_boundary rest = true.
Proof.
  induction s as [|c s IH]; intros H.
  - by vm_compute in H.
  - cbn [re.search_isysroot] in H.
    destruct (re.isysroot_at (String c s)) as [g|] eqn:Hat.
    + inversion H; subst g.
      apply isysroot_at_Some in Hat as (ws & rest & Hs & ?).
      by exists "", ws, rest.
    + destruct (IH H) as (pre & ws & rest & -> & ?).
      by exists (String c pre), ws, rest.
Qed.

(** A text that contains a [-isysroot] token never sends the search to
    [None]: the compiler fallback is taken only when there is no token. *)
Lemma search_isysroot_token pre ws p rest :
  re.all_space ws = true -> re.no_space p = true -> p <> "" ->
  is_Some (re.search_isysroot (pre +:+ "-isysroot" +:+ ws +:+ p +:+ rest)).
Proof.
  intros Hws Hp Hne. induction pre as [|c pre IH].
  - rewrite app_nil_l.
    destruct (isysroot_at_token_is_Some ws p rest Hws Hp Hne) as [g Hg].
    exists g. by apply search_isysroot_here.
  - rewrite app_cons. cbn [re.search_isysroot].
    by destruct (re.isysroot_at _); [eexists|].
Qed.

(** The search returns the leftmost match: a match at the start of [s] is
    the result for [pre +:+ s] when no earlier position matches. *)
Lemma search_isysroot_leftmost pre s p :
  (forall a b, pre = a +:+ b -> b <> "" -> re.isysroot_at (b +:+ s) = None) ->
  re.isysroot_at s = Some p ->
  re.search_isysroot (pre +:+ s) = Some p.
Proof.
  induction pre as [|c pre IH]; intros Hnone Hat.
  - rewrite app_nil_l. by apply search_isysroot_here.
  - rewrite app_cons. cbn [re.search_isysroot]. rewrite <- app_cons.
    rewrite (Hnone "" (String c pre)) by done.
    apply IH; [|done]. intros a b -> Hb.
    apply (Hnone (String c a) b); [by rewrite app_cons|done].
Qed.

Example search_takes_first_token :
  re.search_isysroot "-isysroot /a -isysroot /b" = Some "/a".
Proof. reflexivity. Qed.

Lemma search_isysroot_ne s p : re.search_isysroot s = Some p -> p <> "".
Proof. intros (?&?&?&?&?&?&?)%search_isysroot_Some. done. Qed.

(** *** The search against the tokens of the text *)

Lemma isysroot_token_cons c text pre ws path rest :
  isysroot_token text pre ws path rest ->
  isysroot_token (String c text) (String c pre) ws path rest.
Proof. intros (-> & ?). by split. Qed.

Lemma isysroot_token_uncons c text c' pre ws path rest :
  isysroot_token (String c text) (String c' pre) ws path rest ->
  isysroot_token text pre ws path rest.
Proof. intros (Heq & ?). rewrite app_cons in Heq. inversion Heq. by split. Qed.

Lemma isysroot_token_here text ws path rest :
  isysroot_token text "" ws path rest -> re.isysroot_at text = Some path.
Proof.
  intros (-> & Hws & Hne & Hp & Hb). rewrite app_nil_l.
  by apply isysroot_at_token.
Qed.

(** The search returns the path of the leftmost token. *)
Lemma search_isysroot_leftmost_token text pre ws path rest :
  leftmost_token text pre ws path rest ->
  re.search_isysroot text = Some path.
Proof.
  revert text. induction pre as [|c pre IH]; intros text [Htok Hleft].
  - by apply search_isysroot_here, (isysroot_token_here _ ws _ rest).
  - pose proof Htok as (-> & _). rewrite app_cons.
    rewrite app_cons in Htok, Hleft.
    cbn [re.search_isysroot].
    destruct (re.isysroot_at (String c (pre +:+ _))) as [g|] eqn:Hat.
    + apply isysroot_at_Some in Hat as (ws' & rest' & Heq & Hrest).
      assert (isysroot_token
                (String c (pre +:+ "-isysroot" +:+ ws +:+ path +:+ rest))
                "" ws' g rest') as Htok' by (by split).
      specialize (Hleft _ _ _ _ Htok'). cbn in Hleft. lia.
    + apply IH. split; [by eapply isysroot_token_uncons|].
      intros pre' ws' path' rest' Htok'.
      specialize (Hleft _ _ _ _ (isysroot_token_cons c _ _ _ _ _ Htok')).
      cbn in Hleft. lia.
Qed.

(** What the search returns is the path of the leftmost token. *)
Lemma search_isysroot_is_leftmost text path :
  re.search_isysroot text = Some path ->
  exists pre ws rest, leftmost_token text pre ws path rest.
Proof.
  induction text as [|c text IH]; intros Hs; [by vm_compute in Hs|].
  cbn [re.search_isysroot] in Hs.
  destruct (re.isysroot_at (String c text)) as [g|] eqn:Hat.
  - inversion Hs; subst g.
    apply isysroot_at_Some in Hat as (ws & rest & Heq & Hrest).
    exists "", ws, rest. split; [by split|]. intros. cbn. lia.
  - destruct (IH Hs) as (pre & ws & rest & Htok & Hleft).
    exists (String c pre), ws, rest. split; [by apply isysroot_token_cons|].
    intros [|c' pre'] ws' path' rest' Htok'.
    + apply isysroot_token_here in Htok'. congruence.
    + pose proof Htok' as (Heq & _). rewrite app_cons in Heq.
      inversion Heq; subst c'.
      apply isysroot_token_uncons in Htok'.
      specialize (Hleft _ _ _ _ Htok'). cbn. lia.
Qed.

(** The search finds nothing exactly when the text has no token. *)
Lemma search_isysroot_no_token text :
  re.search_isysroot text = None <->
  forall pre ws path rest, ~ isysroot_token text pre ws path rest.
Proof.
  split.
  - intros Hnone pre ws path rest (-> & Hws & Hne & Hp & _).
    destruct (search_isysroot_token pre ws path rest Hws Hp Hne) as [g Hg].
    congruence.
  - intros Hno. destruct (re.search_isysroot text) as [p|] eqn:Hs; [|done].
    apply search_isysroot_is_leftmost in Hs as (pre & ws & rest & Htok & _).
    by destruct (Hno _ _ _ _ Htok).
Qed.

(** ** [set_compiler_flags] *)

Lemma set_compiler_flags_str target nodist a b g :
  config_vars g !! target = Some (VStr a) ->
  config_vars g !! nodist = Some (VStr b) ->
  set_compiler_flags target nodist g
  = (Ok tt, set_config_var target (VStr ((a +:+ " ") +:+ b)) g).
Proof.
  intros Ha Hb. unfold set_compiler_flags, Py.bind, get_config_var, Py.lift.
  rewrite Ha, Hb. reflexivity.
Qed.

(** The call either leaves the state alone (when [+] raises) or assigns
    the one entry named by its first argument. *)
Lemma set_compiler_flags_state target nodist g :
  (set_compiler_flags target nodist g).2 = g \/
  exists v, (set_compiler_flags target nodist g).2 = set_config_var target v g.
Proof.
  unfold set_compiler_flags, Py.bind, get_config_var, Py.lift.
  destruct (config_vars g !! target) as [[a|n]|];
    destruct (config_vars g !! nodist) as [[b|m]|]; cbn; eauto.
Qed.

(** A variable that is unset or holds an [int] makes [+] raise, and the
    store is left as it was. *)
Lemma set_compiler_flags_not_text target nodist g :
  (forall a, config_vars g !! target <> Some (VStr a)) \/
  (forall b, config_vars g !! nodist <> Some (VStr b)) ->
  set_compiler_flags target nodist g = (Raise TypeError, g).
Proof.
  unfold set_compiler_flags, Py.bind, get_config_var, Py.lift. intros H.
  destruct (config_vars g !! target) as [[a|n]|];
    destruct (config_vars g !! nodist) as [[b|m]|]; cbn; try reflexivity.
  destruct H as [H|H]; [destruct (H a) | destruct (H b)]; reflexivity.
Qed.

(** C5: for every pair of flag texts [a] and [b] held by the two
    variables, [set_compiler_flags] succeeds and writes back to the target
    variable the text [a], one space, then [b]; neither side is dropped,
    also when [a] or [b] is the empty string, so the result is exactly one
    character longer than the two texts together. *)
Theorem set_compiler_flags_concat (target nodist a b : string) (g : Globals) :
  config_vars g !! target = Some (VStr a) ->
  config_vars g !! nodist = Some (VStr b) ->
  let r := set_compiler_flags target nodist g in
  r.1 = Ok tt /\
  config_vars r.2 !! target = Some (VStr (a +:+ " " +:+ b)) /\
  String.length (a +:+ " " +:+ b) = String.length a + 1 + String.length b.
Proof.
  intros Ha Hb. cbn zeta. rewrite (set_compiler_flags_str _ _ _ _ _ Ha Hb).
  split; [done|]. split.
  - cbn. rewrite lookup_insert_eq. by rewrite string_app_assoc.
  - rewrite !string_app_length. cbn. lia.
Qed.

Lemma set_compiler_flags_concat_witness :
  let g := fresh [("LDFLAGS", VStr ""); ("PY_LDFLAGS_NODIST", VStr "-flto")] in
  let r := set_compiler_flags "LDFLAGS" "PY_LDFLAGS_NODIST" g in
  (config_vars g !! "LDFLAGS" = Some (VStr "") /\
   config_vars g !! "PY_LDFLAGS_NODIST" = Some (VStr "-flto")) /\
  r.1 = Ok tt /\
  config_vars r.2 !! "LDFLAGS" = Some (VStr " -flto") /\
  String.length " -flto" = 6.
Proof.
  intros g r.
  assert (config_vars g !! "LDFLAGS" = Some (VStr "")) as Ha
    by (vm_compute; reflexivity).
  assert (config_vars g !! "PY_LDFLAGS_NODIST" = Some (VStr "-flto")) as Hb
    by (vm_compute; reflexivity).
  split; [by split|].
  exact (set_compiler_flags_concat "LDFLAGS" "PY_LDFLAGS_NODIST" "" "-flto" g Ha Hb).
Defined.

(** C10: [set_compiler_flags] changes no entry of the configuration store
    other than the one named by its first argument: every variable [k]
    with another name, the "no-dist" source among them, reads the same
    after the call as before, and so do the other module globals. *)
Theorem set_compiler_flags_frame (target nodist k : string) (g : Globals) :
  k <> target ->
  let g' := (set_compiler_flags target nodist g).2 in
  config_vars g' !! k = config_vars g !! k /\
  (nodist <> target -> config_vars g' !! nodist = config_vars g !! nodist) /\
  MACOS_SDK_ROOT g' = MACOS_SDK_ROOT g /\
  MACOS_SDK_SPECIFIED g' = MACOS_SDK_SPECIFIED g /\
  compiler_runs g' = compiler_runs g.
Proof.
  intros Hk g'. subst g'.
  destruct (set_compiler_flags_state target nodist g) as [-> | [v ->]]; [done|].
  cbn. rewrite lookup_insert_ne by done. split; [done|]. split; [|done].
  intros Hn. by rewrite lookup_insert_ne.
Qed.

Lemma set_compiler_flags_frame_witness :
  let g := fresh [("CFLAGS", VStr "-O2"); ("PY_CFLAGS_NODIST", VStr "-flto");
                  ("CC", VStr "clang")] in
  let g' := (set_compiler_flags "CFLAGS" "PY_CFLAGS_NODIST" g).2 in
  "CC" <> "CFLAGS" /\
  config_vars g' !! "CC" = config_vars g !! "CC" /\
  config_vars g' !! "PY_CFLAGS_NODIST" = config_vars g !! "PY_CFLAGS_NODIST".
Proof.
  intros g g'.
  assert ("CC" <> "CFLAGS") as Hk by discriminate.
  assert ("PY_CFLAGS_NODIST" <> "CFLAGS") as Hn by discriminate.
  split; [exact Hk|].
  destruct (set_compiler_flags_frame "CFLAGS" "PY_CFLAGS_NODIST" "CC" g Hk)
    as (Hcc & Hnodist & _).
  split; [exact Hcc | exact (Hnodist Hn)].
Defined.

(** ** [add_dir_to_list] *)

Lemma elem_of_list_insert_at {A} (i : nat) (x : A) (l : list A) :
  x ∈ list_insert_at i x l.
Proof.
  unfold list_insert_at. apply elem_of_app. right. apply list_elem_of_here.
Qed.

(** C9: [add_dir_to_list] is idempotent: a second call with the same
    directory leaves the list as the first call left it, since the
    directory was either rejected (and is rejected again) or is now in the
    list. *)
Theorem add_dir_to_list_idempotent (h : Host) (dirlist : list string)
    (dir : option string) :
  add_dir_to_list h (add_dir_to_list h dirlist dir) dir
  = add_dir_to_list h dirlist dir.
Proof.
  destruct dir as [d|]; [|done]. unfold add_dir_to_list at 2.
  destruct (negb (path_isdir h d) || bool_decide (d ∈ dirlist)) eqn:Hguard.
  - unfold add_dir_to_list. by rewrite Hguard.
  - set (l' := match first_relative 0 dirlist with
               | Some i => list_insert_at (i + 1) d dirlist
               | None => list_insert_at 0 d dirlist
               end).
    assert (d ∈ l') as Hin.
    { subst l'. destruct (first_relative 0 dirlist); apply elem_of_list_insert_at. }
    unfold add_dir_to_list. rewrite Hguard, (bool_decide_eq_true_2 _ Hin).
    by rewrite orb_true_r.
Qed.

(** ** [macosx_sdk_root] *)

Section sdk_root.

Context (h : Host).

Lemma macosx_sdk_root_cached g root :
  MACOS_SDK_ROOT g = Some root -> root <> "" ->
  macosx_sdk_root h g = (Ok root, g).
Proof.
  intros Hg Hne. unfold macosx_sdk_root, Py.bind, Py.get. rewrite Hg.
  by destruct root.
Qed.

Lemma macosx_sdk_root_uncached g :
  sdk_cached g = false ->
  macosx_sdk_root h g =
    match Py.fspath (config_vars g !! "CFLAGS") with
    | Raise e => (Raise e, g)
    | Ok text =>
        match re.search_isysroot text with
        | Some root => (Ok root, set_sdk root (negb (String.eqb root "/")) g)
        | None =>
            let cc := config_vars g !! "CC" in
            match default_sysroot h cc with
            | Ok root =>
                (Ok root, set_sdk root false (log_compiler_run cc g))
            | Raise e => (Raise e, log_compiler_run cc g)
            end
        end
    end.
Proof.
  unfold sdk_cached, macosx_sdk_root, Py.bind, Py.get, get_config_var, Py.lift.
  intros Hg.
  destruct (MACOS_SDK_ROOT g) as [[|c r]|]; try done;
    (destruct (Py.fspath (config_vars g !! "CFLAGS")) as [text|e]; [|done];
     destruct (re.search_isysroot text); [done|]; cbn;
     by destruct (default_sysroot h (config_vars g !! "CC"))).
Qed.

(** A call that returns has the returned root in the cache, and the root
    comes from the cache, from a token of [CFLAGS], or from the compiler. *)
Lemma macosx_sdk_root_Ok g g1 root :
  macosx_sdk_root h g = (Ok root, g1) ->
  MACOS_SDK_ROOT g1 = Some root /\
  ((MACOS_SDK_ROOT g = Some root /\ root <> "") \/
   (exists text, re.search_isysroot text = Some root) \/
   (exists cc, default_sysroot h cc = Ok root)).
Proof.
  intros Hcall. destruct (sdk_cached g) eqn:Hg.
  - unfold sdk_cached in Hg.
    destruct (MACOS_SDK_ROOT g) as [[|c r]|] eqn:Hroot; try done.
    rewrite (macosx_sdk_root_cached g (String c r) Hroot) in Hcall by done.
    inversion Hcall; subst. split; [done|]. by left.
  - rewrite (macosx_sdk_root_uncached _ Hg) in Hcall.
    destruct (Py.fspath (config_vars g !! "CFLAGS")) as [text|e]; [|done].
    destruct (re.search_isysroot text) eqn:Hs.
    + inversion Hcall; subst. split; [done|]. right; left. by exists text.
    + cbv zeta in Hcall.
      destruct (default_sysroot h (config_vars g !! "CC")) as [r|e] eqn:Hcc;
        inversion Hcall; subst.
      split; [done|]. right; right. by eexists.
Qed.

(** The compiler of the script reports ['/'] or the directory of an SDK:
    with such a compiler every root the routine returns is non-empty. *)
Lemma macosx_sdk_root_nonempty g g1 root :
  (forall cc r, default_sysroot h cc = Ok r -> r <> "") ->
  macosx_sdk_root h g = (Ok root, g1) -> root <> "".
Proof.
  intros Hcc (_ & [[_ ?] | [[text Hs] | [cc Hr]]])%macosx_sdk_root_Ok;
    [done | by eapply search_isysroot_ne | by eapply Hcc].
Qed.

(** The SDK root resolves whenever the platform is not macOS, a root is
    cached, or [CFLAGS] holds text and the compiler command does not
    fail. *)
Lemma bind_sysroot_total g :
  MACOS h = false \/ sdk_cached g = true \/
    ((exists text, config_vars g !! "CFLAGS" = Some (VStr text)) /\
     (forall cc e, default_sysroot h cc <> Raise e)) ->
  exists sysroot g1, bind_sysroot h g = (Ok sysroot, g1).
Proof.
  unfold bind_sysroot, Py.bind. destruct (MACOS h); [|by eexists _, _].
  intros [?|H]; [done|].
  destruct (sdk_cached g) eqn:Hg.
  - unfold sdk_cached in Hg.
    destruct (MACOS_SDK_ROOT g) as [[|c r]|] eqn:Hroot; try done.
    rewrite (macosx_sdk_root_cached g (String c r) Hroot) by done.
    by eexists _, _.
  - destruct H as [?|[[text Ht] Hcc]]; [done|].
    rewrite (macosx_sdk_root_uncached _ Hg), Ht. cbn.
    destruct (re.search_isysroot text); [by eexists _, _|].
    destruct (default_sysroot h (config_vars g !! "CC")) as [r|e] eqn:Hr;
      [by eexists _, _|by destruct (Hcc _ _ Hr)].
Qed.

End sdk_root.

(** C3, as amended: on a call that finds no cached root, when the text of
    [CFLAGS] has an [-isysroot <path>] token, the routine returns the path
    of the leftmost such token, caches it, does not run the compiler, and
    sets [MACOS_SDK_SPECIFIED] to whether that path differs from ['/'];
    only when the text has no such token does it run the compiler: when
    the compiler reports a root, that root is returned and cached and
    [MACOS_SDK_SPECIFIED] is set to false; when the compiler command
    fails, the exception propagates and both globals are left as they
    were. *)
Theorem macosx_sdk_root_first_call (h : Host) (g : Globals) (cflags : string) :
  sdk_cached g = false ->
  config_vars g !! "CFLAGS" = Some (VStr cflags) ->
  let r := macosx_sdk_root h g in
  let cc := config_vars g !! "CC" in
  (forall pre ws path rest,
     leftmost_token cflags pre ws path rest ->
     r.1 = Ok path /\
     MACOS_SDK_ROOT r.2 = Some path /\
     MACOS_SDK_SPECIFIED r.2 = Some (bool_decide (path <> "/")) /\
     compiler_runs r.2 = compiler_runs g) /\
  (forall pre ws path rest,
     isysroot_token cflags pre ws path rest ->
     compiler_runs r.2 = compiler_runs g) /\
  ((forall pre ws path rest, ~ isysroot_token cflags pre ws path rest) ->
     compiler_runs r.2 = compiler_runs g ++ [cc] /\
     (forall root, default_sysroot h cc = Ok root ->
        r.1 = Ok root /\
        MACOS_SDK_ROOT r.2 = Some root /\
        MACOS_SDK_SPECIFIED r.2 = Some false) /\
     (forall e, default_sysroot h cc = Raise e ->
        r.1 = Raise e /\
        MACOS_SDK_ROOT r.2 = MACOS_SDK_ROOT g /\
        MACOS_SDK_SPECIFIED r.2 = MACOS_SDK_SPECIFIED g)).
Proof.
  intros Hg Hc r cc. subst r cc.
  rewrite (macosx_sdk_root_uncached _ _ Hg), Hc. cbn [Py.fspath].
  split; [|split].
  - intros pre ws path rest Hleft.
    rewrite (search_isysroot_leftmost_token _ _ _ _ _ Hleft).
    cbn. repeat split. f_equal.
    destruct (String.eqb_spec path "/") as [->|Hne]; cbn.
    + by rewrite bool_decide_eq_false_2; [|intros []].
    + by rewrite bool_decide_eq_true_2.
  - intros pre ws path rest Htok.
    destruct (re.search_isysroot cflags) as [root|] eqn:Hs; [done|].
    rewrite search_isysroot_no_token in Hs. by destruct (Hs _ _ _ _ Htok).
  - intros Hno. apply search_isysroot_no_token in Hno. rewrite Hno. cbv zeta.
    destruct (default_sysroot h (config_vars g !! "CC")) as [r|e]; cbn.
    + split; [done|]. split; [by intros ? [= <-]|by intros ? [=]].
    + split; [done|]. split; [by intros ? [=]|by intros ? [= <-]].
Qed.

Lemma macosx_sdk_root_first_call_witness :
  let cflags := "-O2 -isysroot /SDKs/MacOSX.sdk -isysroot /" in
  let g := fresh [("CFLAGS", VStr cflags); ("CC", VStr "clang")] in
  let r := macosx_sdk_root darwin_host g in
  (sdk_cached g = false /\
   config_vars g !! "CFLAGS" = Some (VStr cflags) /\
   leftmost_token cflags "-O2 " " " "/SDKs/MacOSX.sdk" " -isysroot /") /\
  r.1 = Ok "/SDKs/MacOSX.sdk" /\
  MACOS_SDK_SPECIFIED r.2 = Some true /\
  compiler_runs r.2 = [].
Proof.
  intros cflags g r.
  assert (sdk_cached g = false) as Hg by reflexivity.
  assert (config_vars g !! "CFLAGS" = Some (VStr cflags)) as Hc
    by (vm_compute; reflexivity).
  assert (leftmost_token cflags "-O2 " " " "/SDKs/MacOSX.sdk" " -isysroot /")
    as Hleft.
  { split.
    { split; [reflexivity|]. split; [reflexivity|]. split; [discriminate|].
      split; reflexivity. }
    intros pre' ws' path' rest' (Heq & _).
    do 4 (destruct pre' as [|? pre']; [discriminate Heq|]).
    cbn. lia. }
  split; [split; [exact Hg|split; [exact Hc|exact Hleft]]|].
  destruct (macosx_sdk_root_first_call darwin_host g _ Hg Hc) as [Htoken _].
  destruct (Htoken _ _ _ _ Hleft) as (Hret & _ & Hspec & Hruns).
  split; [exact Hret|]. split; [exact Hspec | exact Hruns].
Defined.

(** C3, the claim as stated fails.  With the token [-isysroot /] the path
    ['/'] is used as the root and [MACOS_SDK_SPECIFIED] is set to false,
    not true; of two tokens only the leftmost counts, so the path of the
    second one is not used; and with no token, a compiler command that
    fails makes the call raise, leaving nothing marked. *)
Lemma macosx_sdk_root_slash_not_specified :
  (let g := fresh [("CFLAGS", VStr "-O2 -isysroot /"); ("CC", VStr "clang")] in
   let r := macosx_sdk_root darwin_host g in
   isysroot_token "-O2 -isysroot /" "-O2 " " " "/" "" /\
   r.1 = Ok "/" /\
   MACOS_SDK_ROOT r.2 = Some "/" /\
   compiler_runs r.2 = [] /\
   MACOS_SDK_SPECIFIED r.2 = Some false /\
   MACOS_SDK_SPECIFIED r.2 <> Some true) /\
  (let cflags := "-isysroot / -isysroot /SDKs/MacOSX.sdk" in
   let r := macosx_sdk_root darwin_host (fresh [("CFLAGS", VStr cflags)]) in
   isysroot_token cflags "-isysroot / " " " "/SDKs/MacOSX.sdk" "" /\
   r.1 = Ok "/" /\
   r.1 <> Ok "/SDKs/MacOSX.sdk" /\
   MACOS_SDK_SPECIFIED r.2 = Some false) /\
  (let g := fresh [("CFLAGS", VStr "-O2")] in
   let r := macosx_sdk_root darwin_host_no_compiler g in
   (forall pre ws path rest, ~ isysroot_token "-O2" pre ws path rest) /\
   r.1 = Raise AttributeError /\
   MACOS_SDK_ROOT r.2 = None /\
   MACOS_SDK_SPECIFIED r.2 = None /\
   MACOS_SDK_SPECIFIED r.2 <> Some false).
Proof.
  split; [|split].
  - vm_compute. repeat split; discriminate.
  - vm_compute. repeat split; discriminate.
  - cbv zeta. split.
    + by apply search_isysroot_no_token.
    + vm_compute. repeat split; discriminate.
Qed.

(** C4: [macosx_sdk_root] is idempotent: once a call has returned a root,
    a second call returns the same root from the cache and leaves the
    module state, the log of compiler runs included, as it was. *)
Theorem macosx_sdk_root_idempotent (h : Host) (g g1 : Globals) (root : string) :
  macosx_sdk_root h g = (Ok root, g1) ->
  root <> "" ->
  macosx_sdk_root h g1 = (Ok root, g1) /\
  compiler_runs (macosx_sdk_root h g1).2 = compiler_runs g1.
Proof.
  intros [Hcache _]%macosx_sdk_root_Ok Hne.
  by rewrite (macosx_sdk_root_cached h g1 root Hcache Hne).
Qed.

Lemma macosx_sdk_root_idempotent_witness :
  let g := fresh [("CFLAGS", VStr "-O2"); ("CC", VStr "clang")] in
  let g1 := (macosx_sdk_root darwin_host g).2 in
  (macosx_sdk_root darwin_host g = (Ok "/SDKs/MacOSX.sdk", g1) /\
   "/SDKs/MacOSX.sdk" <> "") /\
  compiler_runs g1 = [Some (VStr "clang")] /\
  macosx_sdk_root darwin_host g1 = (Ok "/SDKs/MacOSX.sdk", g1) /\
  compiler_runs (macosx_sdk_root darwin_host g1).2 = compiler_runs g1.
Proof.
  intros g g1.
  assert (macosx_sdk_root darwin_host g = (Ok "/SDKs/MacOSX.sdk", g1)) as Hcall
    by (vm_compute; reflexivity).
  assert ("/SDKs/MacOSX.sdk" <> "") as Hne by discriminate.
  split; [by split|]. split; [vm_compute; reflexivity|].
  exact (macosx_sdk_root_idempotent darwin_host g g1 _ Hcall Hne).
Defined.

(** ** [find_file] and [find_library_file] *)

Section lookup.

Context (h : Host) (sysroot : option string).

Lemma first_hit_None filename dirs :
  first_hit h sysroot filename dirs = None <->
  forall d, d ∈ dirs -> path_exists h (probe h sysroot filename d) = false.
Proof.
  induction dirs as [|d dirs IH]; cbn.
  - split; [|done]. intros _ d Hd. by apply elem_of_nil in Hd.
  - destruct (path_exists h (probe h sysroot filename d)) eqn:Hd.
    + split; [done|]. intros H.
      specialize (H d (list_elem_of_here _ _)). congruence.
    + rewrite IH. split.
      * intros H x [->|Hx]%elem_of_cons; auto.
      * intros H x Hx. apply H. by apply elem_of_cons; right.
Qed.

Lemma first_hit_Some filename before d after :
  (forall x, x ∈ before -> path_exists h (probe h sysroot filename x) = false) ->
  path_exists h (probe h sysroot filename d) = true ->
  first_hit h sysroot filename (before ++ d :: after) = Some d.
Proof.
  intros Hb Hd. induction before as [|x before IH]; cbn.
  - by rewrite Hd.
  - rewrite (Hb x (list_elem_of_here _ _)). apply IH.
    intros y Hy. apply Hb. by apply elem_of_cons; right.
Qed.

Lemma first_match_None dirname dirs :
  first_match h sysroot dirname dirs = None <->
  forall p, p ∈ dirs ->
    dir_matches h sysroot dirname (Str.rstrip posixpath.sep p) = false.
Proof.
  induction dirs as [|d dirs IH]; cbn.
  - split; [|done]. intros _ d Hd. by apply elem_of_nil in Hd.
  - destruct (dir_matches h sysroot dirname (Str.rstrip posixpath.sep d)) eqn:Hd.
    + split; [done|]. intros H.
      specialize (H d (list_elem_of_here _ _)). congruence.
    + rewrite IH. split.
      * intros H x [->|Hx]%elem_of_cons; auto.
      * intros H x Hx. apply H. by apply elem_of_cons; right.
Qed.

Lemma first_match_Some dirname before p after :
  (forall x, x ∈ before ->
     dir_matches h sysroot dirname (Str.rstrip posixpath.sep x) = false) ->
  dir_matches h sysroot dirname (Str.rstrip posixpath.sep p) = true ->
  first_match h sysroot dirname (before ++ p :: after)
  = Some (Str.rstrip posixpath.sep p).
Proof.
  intros Hb Hd. induction before as [|x before IH]; cbn.
  - by rewrite Hd.
  - rewrite (Hb x (list_elem_of_here _ _)). apply IH.
    intros y Hy. apply Hb. by apply elem_of_cons; right.
Qed.

Lemma first_match_elem dirname dirs q :
  first_match h sysroot dirname dirs = Some q ->
  exists p, p ∈ dirs /\ q = Str.rstrip posixpath.sep p /\
    dir_matches h sysroot dirname q = true.
Proof.
  induction dirs as [|d dirs IH]; cbn; [done|].
  destruct (dir_matches h sysroot dirname (Str.rstrip posixpath.sep d)) eqn:Hd.
  - intros [= <-]. exists d. split; [apply list_elem_of_here|done].
  - intros (p & Hp & ?)%IH. exists p. split; [|done].
    by apply elem_of_cons; right.
Qed.

End lookup.

(** The path that [find_file] tests for a directory, for a file name
    that is not absolute: the name appended to the directory, with a
    separator unless the directory is empty or ends with one; on macOS,
    for a directory recognised as an SDK path, the directory is first
    re-rooted at the SDK root. *)
Lemma probe_relative (h : Host) (sysroot : option string)
    (filename dir : string) :
  posixpath.isabs filename = false ->
  let base :=
    match sysroot with
    | Some root =>
        if is_macosx_sdk_path h dir then posixpath.join root [Str.tail dir]
        else dir
    | None => dir
    end in
  probe h sysroot filename dir =
    if String.eqb base "" || Str.ends_with_char posixpath.sep base
    then base +:+ filename
    else base +:+ "/" +:+ filename.
Proof.
  intros Hrel. unfold posixpath.isabs in Hrel.
  unfold probe, posixpath.join. cbn [fold_left].
  destruct sysroot as [root|]; [destruct (is_macosx_sdk_path h dir)|];
    cbv zeta; unfold posixpath.join2 at 1; by rewrite Hrel.
Qed.

(** C2, as amended: for every file name that is not an absolute path and
    every two directory lists, once the SDK root is resolved (on macOS;
    nothing to resolve elsewhere), [find_file] returns, and what it
    returns is: the empty list when the file exists under some standard
    directory; the one-element list of the first additional directory
    under which the file exists when it exists under no standard
    directory; [None] when it exists under no directory of either list.
    Existing under a directory means that the path made of the directory,
    a separator where one is needed, and the file name exists; on macOS a
    directory recognised as an SDK path stands for its image under the
    SDK root, [os.path.join(sysroot, dir[1:])]. *)
Theorem find_file_result (h : Host) (g g1 : Globals) (sysroot : option string)
    (filename : string) (std_dirs paths : list string) :
  bind_sysroot h g = (Ok sysroot, g1) ->
  posixpath.isabs filename = false ->
  let base dir :=
    match sysroot with
    | Some root =>
        if is_macosx_sdk_path h dir then posixpath.join root [Str.tail dir]
        else dir
    | None => dir
    end in
  let under b :=
    if String.eqb b "" || Str.ends_with_char posixpath.sep b
    then b +:+ filename
    else b +:+ "/" +:+ filename in
  let present dir := path_exists h (under (base dir)) = true in
  (sysroot = None <-> MACOS h = false) /\
  exists res,
    find_file h filename std_dirs paths g = (Ok res, g1) /\
    ((exists d, d ∈ std_dirs /\ present d) -> res = Some []) /\
    (forall before d after,
       (forall s, s ∈ std_dirs -> ~ present s) ->
       paths = before ++ d :: after ->
       (forall x, x ∈ before -> ~ present x) ->
       present d ->
       res = Some [d]) /\
    ((forall d, d ∈ std_dirs ++ paths -> ~ present d) -> res = None).
Proof.
  intros Hroot Hrel base under present.
  assert (forall dir,
            path_exists h (probe h sysroot filename dir)
            = path_exists h (under (base dir))) as Hprobe.
  { intros dir. by rewrite (probe_relative h sysroot filename dir Hrel). }
  subst present. split.
  { revert Hroot. unfold bind_sysroot, Py.bind. destruct (MACOS h).
    - destruct (macosx_sdk_root h g) as [[root|e] g']; [|done].
      intros [= <- _]. by split.
    - by intros [= <- _]. }
  unfold find_file, Py.bind. rewrite Hroot.
  destruct (first_hit h sysroot filename std_dirs) as [d0|] eqn:Hstd.
  - eexists. split; [reflexivity|]. split; [done|]. split.
    + intros before d after Hnone _ _ _. exfalso.
      assert (first_hit h sysroot filename std_dirs = None) as Hn; [|congruence].
      apply first_hit_None. intros s Hs. specialize (Hnone s Hs).
      rewrite Hprobe. by destruct (path_exists h _).
    + intros Hnone. exfalso.
      assert (first_hit h sysroot filename std_dirs = None) as Hn; [|congruence].
      apply first_hit_None. intros s Hs.
      specialize (Hnone s). rewrite elem_of_app in Hnone.
      rewrite Hprobe. destruct (path_exists h _); [|done].
      by destruct Hnone; [left|].
  - rewrite first_hit_None in Hstd.
    destruct (first_hit h sysroot filename paths) as [d1|] eqn:Hp;
      (eexists; split; [reflexivity|]); split.
    + intros (d & Hd & Hpres). specialize (Hstd d Hd).
      rewrite Hprobe in Hstd. congruence.
    + split.
      * intros before d after _ -> Hb Hd.
        rewrite first_hit_Some in Hp; [congruence| |by rewrite Hprobe].
        intros x Hx. specialize (Hb x Hx). rewrite Hprobe.
        by destruct (path_exists h _).
      * intros Hnone. exfalso.
        assert (first_hit h sysroot filename paths = None) as Hn; [|congruence].
        apply first_hit_None. intros s Hs.
        specialize (Hnone s). rewrite elem_of_app in Hnone.
        rewrite Hprobe. destruct (path_exists h _); [|done].
        by destruct Hnone; [right|].
    + intros (d & Hd & Hpres). specialize (Hstd d Hd).
      rewrite Hprobe in Hstd. congruence.
    + split; [|done].
      intros before d after _ -> Hb Hd.
      rewrite first_hit_Some in Hp; [congruence| |by rewrite Hprobe].
      intros x Hx. specialize (Hb x Hx). rewrite Hprobe.
      by destruct (path_exists h _).
Qed.

Lemma find_file_result_witness :
  let g := fresh [("CFLAGS", VStr "-O2 -isysroot /SDKs/MacOSX.sdk")] in
  let g1 := (bind_sysroot darwin_host g).2 in
  (bind_sysroot darwin_host g = (Ok (Some "/SDKs/MacOSX.sdk"), g1) /\
   posixpath.isabs "zlib.h" = false /\ posixpath.isabs "foo.h" = false) /\
  path_exists darwin_host "/usr/include/zlib.h" = false /\
  path_exists darwin_host "/SDKs/MacOSX.sdk/usr/include/zlib.h" = true /\
  find_file darwin_host "zlib.h" ["/usr/include"] ["/opt/lib/include"] g
  = (Ok (Some []), g1) /\
  find_file darwin_host "foo.h" ["/usr/include"] ["/opt/lib/include"] g
  = (Ok (Some ["/opt/lib/include"]), g1).
Proof.
  intros g g1.
  assert (bind_sysroot darwin_host g = (Ok (Some "/SDKs/MacOSX.sdk"), g1))
    as Hroot by (vm_compute; reflexivity).
  assert (posixpath.isabs "zlib.h" = false) as Hz by reflexivity.
  assert (posixpath.isabs "foo.h" = false) as Hf by reflexivity.
  split; [by repeat split|].
  split; [vm_compute; reflexivity|]. split; [vm_compute; reflexivity|]. split.
  - destruct (find_file_result darwin_host g g1 _ "zlib.h" ["/usr/include"]
                ["/opt/lib/include"] Hroot Hz)
      as (_ & res & Hrun & Hstd & _).
    rewrite Hrun. f_equal. f_equal. apply Hstd.
    exists "/usr/include". split; [apply list_elem_of_here|].
    vm_compute. reflexivity.
  - destruct (find_file_result darwin_host g g1 _ "foo.h" ["/usr/include"]
                ["/opt/lib/include"] Hroot Hf)
      as (_ & res & Hrun & _ & Hadd & _).
    rewrite Hrun. f_equal. f_equal.
    apply (Hadd [] "/opt/lib/include" []).
    + intros s Hs. apply list_elem_of_singleton in Hs as ->.
      vm_compute. discriminate.
    + reflexivity.
    + intros x Hx. by apply elem_of_nil in Hx.
    + vm_compute. reflexivity.
Defined.

(** C2, the claim as stated fails for an absolute file name:
    [os.path.join] then drops the directory, so the file is found at its
    own path whatever the directory, and the answer names a directory
    under which no file exists. *)
Lemma find_file_absolute_filename :
  posixpath.join "/nonexistent" ["/opt/lib/include/foo.h"]
    = "/opt/lib/include/foo.h" /\
  find_file linux_host "/opt/lib/include/foo.h" [] ["/nonexistent"] (fresh [])
    = (Ok (Some ["/nonexistent"]), fresh []) /\
  find_file linux_host "/opt/lib/include/foo.h" ["/nonexistent"] [] (fresh [])
    = (Ok (Some []), fresh []) /\
  forall p, path_exists linux_host p = true ->
            Str.startswith p "/nonexistent" = false.
Proof.
  split; [reflexivity|]. split; [vm_compute; reflexivity|].
  split; [vm_compute; reflexivity|].
  intros p Hp. unfold linux_host, path_exists, file_set in Hp.
  apply bool_decide_eq_true in Hp.
  apply elem_of_cons in Hp as [->|Hp];
    [|apply list_elem_of_singleton in Hp as ->]; reflexivity.
Qed.



(** ** [set_srcdir] *)

(** C8: when the [srcdir] configuration variable is unset or empty,
    [set_srcdir] raises [ValueError] and leaves no source directory in the
    attribute (it holds [None] or the empty string); when the variable
    holds a non-empty text, the method returns normally and the attribute
    holds [os.path.abspath] of it, which is an absolute path. *)
Theorem set_srcdir_result (h : Host) (vars : gmap string value)
    (self : PyBuildExt) :
  let r := set_srcdir h vars self in
  (vars !! "srcdir" = None \/ vars !! "srcdir" = Some (VStr "") ->
     r.1 = Raise ValueError /\
     (srcdir r.2 = None \/ srcdir r.2 = Some (VStr "")) /\
     extensions r.2 = extensions self) /\
  (forall dir, vars !! "srcdir" = Some (VStr dir) -> dir <> "" ->
     posixpath.isabs (getcwd h) = true ->
     r.1 = Ok tt /\
     srcdir r.2 = Some (VStr (posixpath.abspath (getcwd h) dir)) /\
     posixpath.isabs (posixpath.abspath (getcwd h) dir) = true /\
     extensions r.2 = extensions self).
Proof.
  intros r. subst r. unfold set_srcdir, Py.bind, Py.modify, Py.get. cbn.
  split.
  - intros [-> | ->]; cbn; auto.
  - intros dir -> Hne Hcwd. cbn.
    destruct (String.eqb_spec dir "") as [->|_]; [done|]. cbn.
    split; [done|]. split; [done|]. split; [|done]. by apply isabs_abspath.
Qed.

Lemma set_srcdir_result_witness :
  ((dict [("srcdir", VStr "")] : gmap string value) !! "srcdir"
     = Some (VStr "") /\
   (set_srcdir linux_host (dict [("srcdir", VStr "")]) (build [])).1
     = Raise ValueError) /\
  ((dict [("srcdir", VStr "../src")] : gmap string value) !! "srcdir"
     = Some (VStr "../src") /\
   "../src" <> "" /\ posixpath.isabs (getcwd linux_host) = true /\
   set_srcdir linux_host (dict [("srcdir", VStr "../src")]) (build [])
     = (Ok tt, {| srcdir := Some (VStr "/build/src"); extensions := [] |})).
Proof.
  split.
  - assert ((dict [("srcdir", VStr "")] : gmap string value) !! "srcdir"
            = Some (VStr "")) as Hv by (vm_compute; reflexivity).
    split; [exact Hv|].
    destruct (set_srcdir_result linux_host (dict [("srcdir", VStr "")])
                (build [])) as [Hfail _].
    exact (proj1 (Hfail (or_intror Hv))).
  - assert ((dict [("srcdir", VStr "../src")] : gmap string value) !! "srcdir"
            = Some (VStr "../src")) as Hv by (vm_compute; reflexivity).
    assert ("../src" <> "") as Hne by discriminate.
    assert (posixpath.isabs (getcwd linux_host) = true) as Hcwd by reflexivity.
    split; [exact Hv|]. split; [exact Hne|]. split; [exact Hcwd|].
    destruct (set_srcdir_result linux_host (dict [("srcdir", VStr "../src")])
                (build [])) as [_ Hok].
    destruct (Hok "../src" Hv Hne Hcwd) as (Hret & Hdir & _ & Hexts).
    destruct (set_srcdir linux_host _ _) as [res self'].
    cbn in Hret, Hdir, Hexts. subst res. destruct self' as [sd exts].
    cbn in Hdir, Hexts. subst sd exts. vm_compute. reflexivity.
Defined.

(** A [srcdir] that holds the integer 0 is falsy as well, and any other
    integer is not a path. *)
Lemma set_srcdir_int (h : Host) (vars : gmap string value)
    (self : PyBuildExt) (n : Z) :
  vars !! "srcdir" = Some (VInt n) ->
  (set_srcdir h vars self).1
  = Raise (if Z.eqb n 0 then ValueError else TypeError).
Proof.
  intros Hv. unfold set_srcdir, Py.bind, Py.modify, Py.get. cbn. rewrite Hv.
  cbn. by destruct (Z.eqb n 0).
Qed.

(** ** [remove_disabled] *)

Lemma ext_map_snoc l x :
  ext_map (l ++ [x]) = <[name x := length l]> (ext_map l).
Proof.
  unfold ext_map, dict, enumerate.
  rewrite imap_app, fmap_app, foldl_app. cbn. by rewrite Nat.add_0_r.
Qed.

(** The dictionary maps a name to the index of the last descriptor that
    bears it, and has no entry for a name that no descriptor bears. *)
Lemma ext_map_lookup l k :
  match ext_map l !! k with
  | Some i =>
      exists c, l !! i = Some c /\ name c = k /\
        forall j c', i < j -> l !! j = Some c' -> name c' <> k
  | None => forall c, c ∈ l -> name c <> k
  end.
Proof.
  induction l as [|x l IH] using rev_ind.
  - change (ext_map []) with (∅ : gmap string nat). rewrite lookup_empty.
    intros c Hc. by apply elem_of_nil in Hc.
  - rewrite ext_map_snoc. destruct (decide (name x = k)) as [Hk|Hk].
    + rewrite Hk, lookup_insert_eq. exists x. split; [|split; [done|]].
      * by rewrite list_lookup_middle.
      * intros j c' Hj Hc'. apply lookup_lt_Some in Hc'.
        rewrite length_app in Hc'. cbn in Hc'. lia.
    + rewrite lookup_insert_ne by done.
      destruct (ext_map l !! k) as [i|].
      * destruct IH as (c & Hc & Hn & Hlast). exists c.
        split; [by apply lookup_app_l_Some|]. split; [done|].
        intros j c' Hj [[_ Hc']|[-> ->]]%lookup_snoc_Some; [|done].
        by eapply Hlast.
      * intros c [Hc| ->%list_elem_of_singleton]%elem_of_app; auto.
Qed.

Lemma remove_disabled_eq (disabled : list string) (self : PyBuildExt) :
  remove_disabled disabled self =
    let kept := filter (fun ext => name ext ∉ disabled) (extensions self) in
    match ext_map kept !! "_ctypes" with
    | Some i =>
        match pop i kept with
        | Some (ctypes, rest) =>
            (Ok tt, set_extensions_attr (rest ++ [ctypes]) self)
        | None => (Raise IndexError, self)
        end
    | None => (Ok tt, set_extensions_attr kept self)
    end.
Proof.
  unfold remove_disabled, Py.bind, Py.get, Py.modify, Py.ret, Py.raise.
  cbv zeta.
  destruct (ext_map _ !! "_ctypes") as [i|]; [|done].
  by destruct (pop i _) as [[c rest]|].
Qed.

(** The shape of the list the method leaves in [self.extensions]: the
    index found in the dictionary is in range, so [pop] never raises. *)
Lemma remove_disabled_shape (disabled : list string) (self : PyBuildExt) :
  let kept := filter (fun ext => name ext ∉ disabled) (extensions self) in
  (exists pre c post,
     kept = pre ++ c :: post /\ name c = "_ctypes" /\
     (forall e, e ∈ post -> name e <> "_ctypes") /\
     remove_disabled disabled self
     = (Ok tt, set_extensions_attr (pre ++ post ++ [c]) self)) \/
  ((forall e, e ∈ kept -> name e <> "_ctypes") /\
   remove_disabled disabled self = (Ok tt, set_extensions_attr kept self)).
Proof.
  intros kept. rewrite remove_disabled_eq. fold kept. cbv zeta.
  pose proof (ext_map_lookup kept "_ctypes") as Hidx.
  destruct (ext_map kept !! "_ctypes") as [i|]; [|by right].
  destruct Hidx as (c & Hc & Hn & Hlast). left.
  exists (take i kept), c, (drop (S i) kept).
  split; [by rewrite take_drop_middle|]. split; [done|]. split.
  - intros e (j & Hj)%list_elem_of_lookup. rewrite lookup_drop in Hj.
    eapply Hlast; [|exact Hj]. lia.
  - unfold pop. rewrite Hc, delete_take_drop. by rewrite <- (assoc_L (++)).
Qed.

(** C1: for every extension list and every disabled list,
    [remove_disabled] returns without an error and leaves a list in which
    no descriptor bears a disabled name.  With [kept] the input filtered
    by the disabled list: when a descriptor named [_ctypes] is in [kept],
    the result is [kept] with that descriptor (the last of that name)
    taken out and put at the end, the others staying in the order they
    have in the input; when none is, the result is [kept] unchanged. *)
Theorem remove_disabled_result (disabled : list string) (self : PyBuildExt) :
  let kept := filter (fun ext => name ext ∉ disabled) (extensions self) in
  exists self',
    remove_disabled disabled self = (Ok tt, self') /\
    srcdir self' = srcdir self /\
    (forall ext, ext ∈ extensions self' -> name ext ∉ disabled) /\
    ((exists ext, ext ∈ kept /\ name ext = "_ctypes") ->
       exists pre c post,
         kept = pre ++ c :: post /\ name c = "_ctypes" /\
         (forall e, e ∈ post -> name e <> "_ctypes") /\
         extensions self' = pre ++ post ++ [c] /\
         last (extensions self') = Some c /\
         pre ++ post `sublist_of` extensions self) /\
    ((forall ext, ext ∈ kept -> name ext <> "_ctypes") ->
       extensions self' = kept /\
       extensions self' `sublist_of` extensions self).
Proof.
  intros kept.
  assert (forall ext, ext ∈ kept -> name ext ∉ disabled) as Hkept.
  { intros ext Hext. by apply list_elem_of_filter in Hext as [? _]. }
  assert (kept `sublist_of` extensions self) as Hsub by apply sublist_filter.
  pose proof (remove_disabled_shape disabled self) as Hshape.
  cbv zeta in Hshape. fold kept in Hshape.
  destruct Hshape as [(pre & c & post & Hk & Hn & Hlast & ->) | [Hnone ->]].
  - eexists. split; [reflexivity|]. split; [done|]. cbn. split; [|split].
    + intros ext Hext. apply Hkept. rewrite Hk.
      rewrite !elem_of_app, list_elem_of_singleton in Hext.
      rewrite elem_of_app, elem_of_cons. tauto.
    + intros _. exists pre, c, post.
      split; [done|]. split; [done|]. split; [done|]. split; [done|].
      split; [by rewrite (assoc_L (++)), last_snoc|].
      etrans; [|exact Hsub]. rewrite Hk.
      apply sublist_app; [done|]. by apply sublist_cons.
    + intros Habs. destruct (Habs c); [|done].
      rewrite Hk, elem_of_app, elem_of_cons. auto.
  - eexists. split; [reflexivity|]. split; [done|]. cbn.
    split; [done|]. split; [|done].
    intros (ext & Hext & Hn). by destruct (Hnone ext Hext).
Qed.

Lemma remove_disabled_result_witness :
  let self := build [ext "_ctypes"; ext "_tkinter"; ext "_socket"] in
  exists self',
    remove_disabled ["_tkinter"] self = (Ok tt, self') /\
    (forall e, e ∈ extensions self' -> name e ∉ ["_tkinter"]) /\
    last (extensions self') = Some (ext "_ctypes").
Proof.
  intros self.
  destruct (remove_disabled_result ["_tkinter"] self)
    as (self' & Hrun & _ & Hclean & Hmove & _).
  exists self'. split; [exact Hrun|]. split; [exact Hclean|].
  destruct Hmove as (pre & c & post & Hk & Hn & Hpost & _ & Hlast & _).
  - exists (ext "_ctypes"). split; [|reflexivity].
    vm_compute. apply list_elem_of_here.
  - rewrite Hlast. f_equal.
    change (filter _ (extensions self)) with [ext "_ctypes"; ext "_socket"] in Hk.
    destruct pre as [|x pre].
    + by inversion Hk.
    + inversion Hk as [[Hx Hrest]]. destruct pre as [|y pre].
      * by inversion Hrest; subst.
      * inversion Hrest as [[Hy Hnil]]. by destruct pre.
Defined.

(** C7: when the names of the descriptors of the input list are pairwise
    distinct, [remove_disabled] returns and the names of the descriptors
    of the list it leaves are pairwise distinct too. *)
Theorem remove_disabled_names_unique (disabled : list string)
    (self : PyBuildExt) :
  NoDup (name <$> extensions self) ->
  exists self',
    remove_disabled disabled self = (Ok tt, self') /\
    NoDup (name <$> extensions self').
Proof.
  intros Hdup.
  set (kept := filter (fun ext => name ext ∉ disabled) (extensions self)).
  assert (NoDup (name <$> kept)) as Hkept.
  { eapply sublist_NoDup; [exact Hdup|]. apply fmap_sublist, sublist_filter. }
  pose proof (remove_disabled_shape disabled self) as Hshape.
  cbv zeta in Hshape. fold kept in Hshape.
  destruct Hshape as [(pre & c & post & Hk & Hn & Hlast & ->) | [Hnone ->]].
  - eexists. split; [reflexivity|]. cbn.
    assert (pre ++ post ++ [c] ≡ₚ kept) as ->; [|done].
    rewrite Hk. apply Permutation_app_head. symmetry.
    apply Permutation_cons_append.
  - by eexists.
Qed.

Lemma remove_disabled_names_unique_witness :
  let self := build [ext "_ctypes"; ext "_tkinter"; ext "_socket"] in
  NoDup (name <$> extensions self) /\
  exists self',
    remove_disabled ["_tkinter"] self = (Ok tt, self') /\
    NoDup (name <$> extensions self').
Proof.
  intros self.
  assert (NoDup (name <$> extensions self)) as Hdup.
  { apply (bool_decide_unpack _). vm_compute. exact I. }
  split; [exact Hdup|].
  exact (remove_disabled_names_unique ["_tkinter"] self Hdup).
Defined.

(** * Further properties of the script *)

(** ** [add_dir_to_list]: where the directory goes and what is kept *)

Lemma first_relative_app i abs r rest :
  Forall (fun p => posixpath.isabs p = true) abs ->
  posixpath.isabs r = false ->
  first_relative i (abs ++ r :: rest) = Some (i + length abs).
Proof.
  intros Habs Hr. revert i.
  induction Habs as [|p abs Hp _ IH]; intros i; cbn [first_relative app length].
  - rewrite Hr. cbn [negb]. f_equal. lia.
  - rewrite Hp. cbn [negb]. rewrite IH. f_equal. lia.
Qed.

Lemma first_relative_all_abs i l :
  Forall (fun p => posixpath.isabs p = true) l -> first_relative i l = None.
Proof.
  intros Habs. revert i.
  induction Habs as [|p l Hp _ IH]; intros i; cbn [first_relative]; [done|].
  rewrite Hp. cbn [negb]. apply IH.
Qed.

Lemma list_insert_at_perm {A} (i : nat) (x : A) (l : list A) :
  list_insert_at i x l ≡ₚ x :: l.
Proof.
  unfold list_insert_at. rewrite <- Permutation_middle. by rewrite take_drop.
Qed.

Lemma list_insert_at_sublist {A} (i : nat) (x : A) (l : list A) :
  l `sublist_of` list_insert_at i x l.
Proof.
  unfold list_insert_at. rewrite <- (take_drop i l) at 1.
  apply sublist_app; [done|]. by apply sublist_cons.
Qed.

Lemma list_insert_at_after {A} (l1 : list A) (x y : A) (l2 : list A) :
  list_insert_at (length l1 + 1) y (l1 ++ x :: l2) = l1 ++ x :: y :: l2.
Proof.
  unfold list_insert_at. rewrite (cons_middle x l1 l2), (assoc_L (++)).
  rewrite take_app_length', drop_app_length' by (rewrite length_app; cbn; lia).
  by rewrite <- (assoc_L (++)).
Qed.

(** The outcome of a call with a directory: the list as it was, or the
    list with the directory inserted at some index. *)
Lemma add_dir_to_list_cases (h : Host) (dirlist : list string) (d : string) :
  ((negb (path_isdir h d) || bool_decide (d ∈ dirlist)) = true /\
   add_dir_to_list h dirlist (Some d) = dirlist) \/
  (path_isdir h d = true /\ (d ∉ dirlist) /\
   exists i, add_dir_to_list h dirlist (Some d) = list_insert_at i d dirlist).
Proof.
  unfold add_dir_to_list.
  destruct (negb (path_isdir h d) || bool_decide (d ∈ dirlist)) eqn:Hguard;
    [by left|right].
  apply orb_false_iff in Hguard as [Hdir Hin].
  apply negb_false_iff in Hdir. apply bool_decide_eq_false in Hin.
  split; [done|]. split; [done|].
  destruct (first_relative 0 dirlist); by eexists.
Qed.

(** X1: When the directory is accepted, it is put right after the first path
    of the list that is not absolute, and at the front of a list whose
    paths are all absolute. *)
Theorem add_dir_to_list_position (h : Host) (dirlist : list string)
    (d : string) :
  path_isdir h d = true -> d ∉ dirlist ->
  (forall abs r rest,
     dirlist = abs ++ r :: rest ->
     Forall (fun p => posixpath.isabs p = true) abs ->
     posixpath.isabs r = false ->
     add_dir_to_list h dirlist (Some d) = abs ++ r :: d :: rest) /\
  (Forall (fun p => posixpath.isabs p = true) dirlist ->
   add_dir_to_list h dirlist (Some d) = d :: dirlist).
Proof.
  intros Hdir Hin. unfold add_dir_to_list.
  rewrite Hdir, (bool_decide_eq_false_2 _ Hin). cbn [negb orb]. split.
  - intros abs r rest -> Habs Hr.
    rewrite (first_relative_app 0 abs r rest Habs Hr). cbn [Nat.add].
    apply list_insert_at_after.
  - intros Habs. by rewrite (first_relative_all_abs 0 _ Habs).
Qed.

Lemma add_dir_to_list_position_witness :
  path_isdir linux_host "/usr/local/lib" = true /\
  ("/usr/local/lib" ∉ ["/opt"; "."; "/usr/lib"; "rel"]) /\
  add_dir_to_list linux_host ["/opt"; "."; "/usr/lib"; "rel"]
    (Some "/usr/local/lib")
  = ["/opt"; "."; "/usr/local/lib"; "/usr/lib"; "rel"].
Proof.
  assert (path_isdir linux_host "/usr/local/lib" = true) as Hdir
    by (vm_compute; reflexivity).
  assert ("/usr/local/lib" ∉ ["/opt"; "."; "/usr/lib"; "rel"]) as Hin.
  { apply (bool_decide_unpack _). vm_compute. exact I. }
  split; [exact Hdir|]. split; [exact Hin|].
  apply (proj1 (add_dir_to_list_position linux_host _ _ Hdir Hin)
           ["/opt"] "." ["/usr/lib"; "rel"]).
  - reflexivity.
  - repeat constructor.
  - reflexivity.
Defined.

(** X2: The list after a call holds what it held before, and the directory
    when it is one on the file system; nothing else. *)
Theorem add_dir_to_list_elem_of (h : Host) (dirlist : list string)
    (dir : option string) (x : string) :
  x ∈ add_dir_to_list h dirlist dir <->
  x ∈ dirlist \/ (dir = Some x /\ path_isdir h x = true).
Proof.
  destruct dir as [d|].
  - destruct (add_dir_to_list_cases h dirlist d)
      as [[Hguard ->] | (Hdir & Hin & i & ->)].
    + split; [by left|]. intros [?|[[= ->] Hx]]; [done|].
      rewrite Hx in Hguard. cbn in Hguard. by apply bool_decide_eq_true in Hguard.
    + rewrite list_insert_at_perm, elem_of_cons. split.
      * intros [->|?]; [right|left]; done.
      * intros [?|[[= ->] _]]; [right|left]; done.
  - cbn. split; [by left|]. by intros [?|[? _]].
Qed.

(** X3: A call keeps the paths of the list in their order, adds at most one
    path, and never creates a duplicate. *)
Theorem add_dir_to_list_keeps (h : Host) (dirlist : list string)
    (dir : option string) :
  dirlist `sublist_of` add_dir_to_list h dirlist dir /\
  length (add_dir_to_list h dirlist dir) <= S (length dirlist) /\
  (NoDup dirlist -> NoDup (add_dir_to_list h dirlist dir)).
Proof.
  destruct dir as [d|]; [|cbn; auto].
  destruct (add_dir_to_list_cases h dirlist d)
    as [[Hguard ->] | (Hdir & Hin & i & ->)]; [auto|].
  split; [apply list_insert_at_sublist|]. split.
  - rewrite list_insert_at_perm. cbn. lia.
  - intros Hdup. rewrite list_insert_at_perm. by constructor.
Qed.

Lemma add_dir_to_list_keeps_witness :
  NoDup ["."; "/usr/lib"] /\
  NoDup (add_dir_to_list linux_host ["."; "/usr/lib"] (Some "/usr/local/lib")).
Proof.
  assert (NoDup ["."; "/usr/lib"]) as Hdup.
  { apply (bool_decide_unpack _). vm_compute. exact I. }
  split; [exact Hdup|].
  exact (proj2 (proj2 (add_dir_to_list_keeps linux_host ["."; "/usr/lib"]
                         (Some "/usr/local/lib"))) Hdup).
Defined.

(** ** [set_compiler_flags]: repeated calls and failures *)

(** X4: The routine does not guard against a second call: with two distinct
    variables that hold text, calling it again appends the no-dist flags
    once more. *)
Theorem set_compiler_flags_again (target nodist a b : string) (g : Globals) :
  target <> nodist ->
  config_vars g !! target = Some (VStr a) ->
  config_vars g !! nodist = Some (VStr b) ->
  let g1 := (set_compiler_flags target nodist g).2 in
  let r := set_compiler_flags target nodist g1 in
  r.1 = Ok tt /\
  config_vars r.2 !! target = Some (VStr (a +:+ " " +:+ b +:+ " " +:+ b)) /\
  config_vars r.2 !! nodist = Some (VStr b).
Proof.
  intros Hne Ha Hb g1 r. subst g1 r.
  rewrite (set_compiler_flags_str _ _ _ _ _ Ha Hb). cbn [snd].
  rewrite (set_compiler_flags_str target nodist ((a +:+ " ") +:+ b) b).
  - cbn. rewrite lookup_insert_eq, lookup_insert_ne by done.
    rewrite lookup_insert_ne by done. split; [done|]. split; [|done].
    by rewrite !string_app_assoc.
  - cbn. by rewrite lookup_insert_eq.
  - cbn. by rewrite lookup_insert_ne.
Qed.

Lemma set_compiler_flags_again_witness :
  let g := fresh [("CFLAGS", VStr "-O2"); ("PY_CFLAGS_NODIST", VStr "-flto")] in
  let g1 := (set_compiler_flags "CFLAGS" "PY_CFLAGS_NODIST" g).2 in
  let r := set_compiler_flags "CFLAGS" "PY_CFLAGS_NODIST" g1 in
  "CFLAGS" <> "PY_CFLAGS_NODIST" /\
  r.1 = Ok tt /\
  config_vars r.2 !! "CFLAGS" = Some (VStr "-O2 -flto -flto").
Proof.
  intros g g1 r.
  assert ("CFLAGS" <> "PY_CFLAGS_NODIST") as Hne by discriminate.
  assert (config_vars g !! "CFLAGS" = Some (VStr "-O2")) as Ha
    by (vm_compute; reflexivity).
  assert (config_vars g !! "PY_CFLAGS_NODIST" = Some (VStr "-flto")) as Hb
    by (vm_compute; reflexivity).
  split; [exact Hne|].
  destruct (set_compiler_flags_again "CFLAGS" "PY_CFLAGS_NODIST" "-O2" "-flto"
              g Hne Ha Hb) as (Hret & Hflags & _).
  split; [exact Hret | exact Hflags].
Defined.

(** X5: A variable that is unset, or that holds an integer, makes the
    concatenation raise [TypeError]; the store is then left as it was. *)
Theorem set_compiler_flags_failure (target nodist : string) (g : Globals) :
  (forall a, config_vars g !! target <> Some (VStr a)) \/
  (forall b, config_vars g !! nodist <> Some (VStr b)) ->
  set_compiler_flags target nodist g = (Raise TypeError, g).
Proof.
  unfold set_compiler_flags, Py.bind, get_config_var, Py.lift. intros Hbad.
  destruct (config_vars g !! target) as [[a|n]|] eqn:Ha;
    destruct (config_vars g !! nodist) as [[b|m]|] eqn:Hb;
    cbn; try reflexivity.
  destruct Hbad as [Hbad|Hbad]; [destruct (Hbad a) | destruct (Hbad b)];
    reflexivity.
Qed.

Lemma set_compiler_flags_failure_witness :
  let g := fresh [("CFLAGS", VStr "-O2"); ("WITH_DOC_STRINGS", VInt 1)] in
  (forall b, config_vars g !! "WITH_DOC_STRINGS" <> Some (VStr b)) /\
  set_compiler_flags "CFLAGS" "WITH_DOC_STRINGS" g = (Raise TypeError, g) /\
  set_compiler_flags "CFLAGS" "PY_CFLAGS_NODIST" g = (Raise TypeError, g).
Proof.
  intros g.
  assert (forall b, config_vars g !! "WITH_DOC_STRINGS" <> Some (VStr b)) as Hint.
  { intros b. vm_compute. discriminate. }
  assert (forall b, config_vars g !! "PY_CFLAGS_NODIST" <> Some (VStr b)) as Hno.
  { intros b. vm_compute. discriminate. }
  split; [exact Hint|]. split.
  - exact (set_compiler_flags_failure "CFLAGS" "WITH_DOC_STRINGS" g
             (or_intror Hint)).
  - exact (set_compiler_flags_failure "CFLAGS" "PY_CFLAGS_NODIST" g
             (or_intror Hno)).
Defined.

(** ** [macosx_sdk_root] and [macosx_sdk_specified]: effects and the
    invariant of the SDK globals *)

(** X6: A call never writes a configuration variable, and runs the compiler
    at most once, with the value of [CC]; with a cached root it changes
    nothing at all. *)
Theorem macosx_sdk_root_effects (h : Host) (g : Globals) :
  let r := macosx_sdk_root h g in
  config_vars r.2 = config_vars g /\
  (compiler_runs r.2 = compiler_runs g \/
   compiler_runs r.2 = compiler_runs g ++ [config_vars g !! "CC"]) /\
  (sdk_cached g = true ->
   exists root, MACOS_SDK_ROOT g = Some root /\ r = (Ok root, g)).
Proof.
  intros r. subst r. destruct (sdk_cached g) eqn:Hg.
  - unfold sdk_cached in Hg.
    destruct (MACOS_SDK_ROOT g) as [[|c root]|] eqn:Hroot; try done.
    rewrite (macosx_sdk_root_cached h g (String c root)) by done.
    split; [done|]. split; [by left|]. intros _. by eexists.
  - rewrite (macosx_sdk_root_uncached h g Hg).
    destruct (Py.fspath (config_vars g !! "CFLAGS")) as [text|e].
    + destruct (re.search_isysroot text); cbn.
      * split; [done|]. split; [by left|done].
      * destruct (default_sysroot h (config_vars g !! "CC")); cbn;
          (split; [done|]); (split; [by right|done]).
    + split; [done|]. split; [by left|done].
Qed.

Lemma macosx_sdk_root_effects_witness :
  let g := (macosx_sdk_root darwin_host
              (fresh [("CFLAGS", VStr "-O2"); ("CC", VStr "clang")])).2 in
  sdk_cached g = true /\
  exists root, MACOS_SDK_ROOT g = Some root /\
    macosx_sdk_root darwin_host g = (Ok root, g).
Proof.
  intros g.
  assert (sdk_cached g = true) as Hg by (vm_compute; reflexivity).
  split; [exact Hg|].
  exact (proj2 (proj2 (macosx_sdk_root_effects darwin_host g)) Hg).
Defined.

(** X7: With no cached root, a [CFLAGS] that is unset or holds an integer
    makes the search raise [TypeError]: [macosx_sdk_root] fails, and so do
    [find_file] and [find_library_file] on macOS, before any directory is
    looked at; the module state is left as it was. *)
Theorem macosx_sdk_root_needs_cflags (h : Host) (g : Globals) :
  sdk_cached g = false ->
  (forall text, config_vars g !! "CFLAGS" <> Some (VStr text)) ->
  macosx_sdk_root h g = (Raise TypeError, g) /\
  (MACOS h = true ->
   (forall filename std_dirs paths,
      find_file h filename std_dirs paths g = (Raise TypeError, g)) /\
   (forall result std_dirs paths,
      find_library_file h result std_dirs paths g = (Raise TypeError, g))).
Proof.
  intros Hg Hc.
  assert (macosx_sdk_root h g = (Raise TypeError, g)) as Hroot.
  { rewrite (macosx_sdk_root_uncached h g Hg).
    destruct (config_vars g !! "CFLAGS") as [[text|n]|]; cbn; try done.
    by destruct (Hc text). }
  split; [done|]. intros Hmac.
  split; intros; unfold find_file, find_library_file, bind_sysroot, Py.bind;
    by rewrite Hmac, Hroot.
Qed.

Lemma macosx_sdk_root_needs_cflags_witness :
  let g := fresh [("CC", VStr "clang")] in
  sdk_cached g = false /\
  (forall text, config_vars g !! "CFLAGS" <> Some (VStr text)) /\
  macosx_sdk_root darwin_host g = (Raise TypeError, g) /\
  find_file darwin_host "zlib.h" ["/usr/include"] [] g = (Raise TypeError, g).
Proof.
  intros g.
  assert (sdk_cached g = false) as Hg by reflexivity.
  assert (forall text, config_vars g !! "CFLAGS" <> Some (VStr text)) as Hc.
  { intros text. vm_compute. discriminate. }
  split; [exact Hg|]. split; [exact Hc|].
  destruct (macosx_sdk_root_needs_cflags darwin_host g Hg Hc) as [Hroot Hfind].
  split; [exact Hroot|]. exact (proj1 (Hfind eq_refl) "zlib.h" ["/usr/include"] []).
Defined.

Lemma macosx_sdk_root_consistent (h : Host) (g : Globals) :
  sdk_consistent g -> sdk_consistent (macosx_sdk_root h g).2.
Proof.
  intros Hinv. destruct (sdk_cached g) eqn:Hg.
  - unfold sdk_cached in Hg.
    destruct (MACOS_SDK_ROOT g) as [[|c root]|] eqn:Hroot; try done.
    by rewrite (macosx_sdk_root_cached h g (String c root)).
  - rewrite (macosx_sdk_root_uncached h g Hg).
    destruct (Py.fspath (config_vars g !! "CFLAGS")) as [text|e]; [|done].
    destruct (re.search_isysroot text) as [root|] eqn:Hs; cbn.
    + intros [= Hspec]. exists root. split; [done|].
      split; [by eapply search_isysroot_ne|].
      intros ->. by vm_compute in Hspec.
    + destruct (default_sysroot h (config_vars g !! "CC")); cbn;
        [by intros [=] | exact Hinv].
Qed.

Lemma bind_sysroot_state (h : Host) (g : Globals) :
  (bind_sysroot h g).2 = if MACOS h then (macosx_sdk_root h g).2 else g.
Proof.
  unfold bind_sysroot, Py.bind. destruct (MACOS h); [|done].
  by destruct (macosx_sdk_root h g) as [[root|e] g'].
Qed.

Lemma find_file_state (h : Host) filename std_dirs paths (g : Globals) :
  (find_file h filename std_dirs paths g).2 = (bind_sysroot h g).2.
Proof.
  unfold find_file, Py.bind.
  destruct (bind_sysroot h g) as [[sysroot|e] g']; [|done].
  destruct (first_hit h sysroot filename std_dirs); [done|].
  by destruct (first_hit h sysroot filename paths).
Qed.

Lemma find_library_file_state (h : Host) result std_dirs paths (g : Globals) :
  (find_library_file h result std_dirs paths g).2 = (bind_sysroot h g).2.
Proof.
  unfold find_library_file, Py.bind.
  destruct (bind_sysroot h g) as [[sysroot|e] g']; [|done].
  destruct (first_match h sysroot _ std_dirs); [done|].
  by destruct (first_match h sysroot _ paths).
Qed.

Lemma macosx_sdk_specified_unfold (h : Host) (g : Globals) :
  macosx_sdk_specified h g =
    match MACOS_SDK_SPECIFIED g with
    | Some true => (Ok (Some true), g)
    | _ =>
        match macosx_sdk_root h g with
        | (Ok _, g') => (Ok (MACOS_SDK_SPECIFIED g'), g')
        | (Raise e, g') => (Raise e, g')
        end
    end.
Proof.
  unfold macosx_sdk_specified, Py.bind, Py.get, Py.ret.
  destruct (MACOS_SDK_SPECIFIED g) as [[|]|]; try done;
    by destruct (macosx_sdk_root h g) as [[root|e] g'].
Qed.

Lemma macosx_sdk_specified_state (h : Host) (g : Globals) :
  (macosx_sdk_specified h g).2 = g \/
  (macosx_sdk_specified h g).2 = (macosx_sdk_root h g).2.
Proof.
  rewrite macosx_sdk_specified_unfold.
  destruct (MACOS_SDK_SPECIFIED g) as [[|]|]; [by left|right..];
    by destruct (macosx_sdk_root h g) as [[root|e] g'].
Qed.

(** X8: On a first query, with nothing cached and [CFLAGS] holding text,
    [macosx_sdk_specified] leaves the state [macosx_sdk_root] leaves and
    answers by the leftmost [-isysroot] token of the text: true when its
    path is not ['/'], false when it is, whatever tokens follow.  With no
    token it answers false when the compiler reports a root, and raises
    what the compiler call raises when the command fails.  So the answer
    is true exactly when there is a leftmost token with a path other than
    ['/']. *)
Theorem macosx_sdk_specified_first_call (h : Host) (g : Globals)
    (cflags : string) :
  sdk_cached g = false ->
  MACOS_SDK_SPECIFIED g <> Some true ->
  config_vars g !! "CFLAGS" = Some (VStr cflags) ->
  let r := macosx_sdk_specified h g in
  let cc := config_vars g !! "CC" in
  r.2 = (macosx_sdk_root h g).2 /\
  (forall pre ws path rest,
     leftmost_token cflags pre ws path rest ->
     r.1 = Ok (Some (bool_decide (path <> "/")))) /\
  ((forall pre ws path rest, ~ isysroot_token cflags pre ws path rest) ->
     (forall root, default_sysroot h cc = Ok root -> r.1 = Ok (Some false)) /\
     (forall e, default_sysroot h cc = Raise e -> r.1 = Raise e)) /\
  (r.1 = Ok (Some true) <->
   exists pre ws path rest,
     leftmost_token cflags pre ws path rest /\ path <> "/").
Proof.
  intros Hg Hspec Hc r cc. subst r cc.
  assert (macosx_sdk_specified h g =
          match macosx_sdk_root h g with
          | (Ok _, g') => (Ok (MACOS_SDK_SPECIFIED g'), g')
          | (Raise e, g') => (Raise e, g')
          end) as ->.
  { rewrite macosx_sdk_specified_unfold.
    by destruct (MACOS_SDK_SPECIFIED g) as [[|]|]. }
  rewrite (macosx_sdk_root_uncached h g Hg), Hc. cbn [Py.fspath].
  assert (forall root : string,
            negb (String.eqb root "/") = bool_decide (root <> "/")) as Hdec.
  { intros root. destruct (String.eqb_spec root "/") as [->|Hne]; cbn.
    - by rewrite bool_decide_eq_false_2; [|intros []].
    - by rewrite bool_decide_eq_true_2. }
  destruct (re.search_isysroot cflags) as [root|] eqn:Hs.
  - cbn. rewrite Hdec. split; [done|]. split; [|split].
    + intros pre ws path rest Hleft.
      rewrite (search_isysroot_leftmost_token _ _ _ _ _ Hleft) in Hs.
      by inversion Hs.
    + intros Hno. apply search_isysroot_no_token in Hno. congruence.
    + split.
      * intros [= Hb]. apply bool_decide_eq_true in Hb.
        apply search_isysroot_is_leftmost in Hs as (pre & ws & rest & Hleft).
        by exists pre, ws, root, rest.
      * intros (pre & ws & path & rest & Hleft & Hne).
        rewrite (search_isysroot_leftmost_token _ _ _ _ _ Hleft) in Hs.
        inversion Hs; subst. by rewrite bool_decide_eq_true_2.
  - cbv zeta.
    destruct (default_sysroot h (config_vars g !! "CC")) as [root|e]; cbn;
      (split; [done|]); (split; [|split]).
    + intros pre ws path rest Hleft.
      rewrite (search_isysroot_leftmost_token _ _ _ _ _ Hleft) in Hs. done.
    + intros _. split; [done|by intros ? [=]].
    + split; [done|]. intros (pre & ws & path & rest & Hleft & _).
      rewrite (search_isysroot_leftmost_token _ _ _ _ _ Hleft) in Hs. done.
    + intros pre ws path rest Hleft.
      rewrite (search_isysroot_leftmost_token _ _ _ _ _ Hleft) in Hs. done.
    + intros _. split; [by intros ? [=]|by intros ? [= <-]].
    + split; [done|]. intros (pre & ws & path & rest & Hleft & _).
      rewrite (search_isysroot_leftmost_token _ _ _ _ _ Hleft) in Hs. done.
Qed.

Lemma macosx_sdk_specified_first_call_witness :
  let cflags := "-isysroot / -isysroot /SDKs/MacOSX.sdk" in
  let g := fresh [("CFLAGS", VStr cflags); ("CC", VStr "clang")] in
  (sdk_cached g = false /\ MACOS_SDK_SPECIFIED g <> Some true /\
   config_vars g !! "CFLAGS" = Some (VStr cflags) /\
   leftmost_token cflags "" " " "/" " -isysroot /SDKs/MacOSX.sdk") /\
  (macosx_sdk_specified darwin_host g).1 = Ok (Some false).
Proof.
  intros cflags g.
  assert (sdk_cached g = false) as Hg by reflexivity.
  assert (MACOS_SDK_SPECIFIED g <> Some true) as Hs by discriminate.
  assert (config_vars g !! "CFLAGS" = Some (VStr cflags)) as Hc
    by (vm_compute; reflexivity).
  assert (leftmost_token cflags "" " " "/" " -isysroot /SDKs/MacOSX.sdk")
    as Hleft.
  { split.
    { split; [reflexivity|]. split; [reflexivity|]. split; [discriminate|].
      split; reflexivity. }
    intros. cbn. lia. }
  split; [split; [exact Hg|split; [exact Hs|split; [exact Hc|exact Hleft]]]|].
  exact (proj1 (proj2 (macosx_sdk_specified_first_call darwin_host g _ Hg Hs Hc))
           _ _ _ _ Hleft).
Defined.

(** X9: Once [macosx_sdk_specified] has answered, asking again gives the same
    answer and changes nothing: the compiler is not run a second time. *)
Theorem macosx_sdk_specified_idempotent (h : Host) (g g1 : Globals)
    (answer : option bool) :
  (forall cc root, default_sysroot h cc = Ok root -> root <> "") ->
  macosx_sdk_specified h g = (Ok answer, g1) ->
  macosx_sdk_specified h g1 = (Ok answer, g1).
Proof.
  intros Hcc. rewrite !macosx_sdk_specified_unfold. intros Hcall.
  assert (MACOS_SDK_SPECIFIED g = Some true /\ answer = Some true /\ g1 = g \/
          exists root, macosx_sdk_root h g = (Ok root, g1) /\
                       answer = MACOS_SDK_SPECIFIED g1) as [(Hs & -> & ->) | (root & Hroot & ->)].
  { destruct (MACOS_SDK_SPECIFIED g) as [[|]|]; [left; by inversion Hcall|right..];
      (destruct (macosx_sdk_root h g) as [[root|e] g'] eqn:Hroot; [|done];
       inversion Hcall; subst; by exists root). }
  - by rewrite Hs.
  - pose proof (macosx_sdk_root_nonempty h g g1 root Hcc Hroot) as Hne.
    apply macosx_sdk_root_Ok in Hroot as [Hcache _].
    rewrite (macosx_sdk_root_cached h g1 root Hcache Hne).
    by destruct (MACOS_SDK_SPECIFIED g1) as [[|]|].
Qed.

Lemma macosx_sdk_specified_idempotent_witness :
  let g := fresh [("CFLAGS", VStr "-O2"); ("CC", VStr "clang")] in
  let g1 := (macosx_sdk_specified darwin_host g).2 in
  ((forall cc root,
      default_sysroot darwin_host cc = Ok root -> root <> "") /\
   macosx_sdk_specified darwin_host g = (Ok (Some false), g1)) /\
  compiler_runs g1 = [Some (VStr "clang")] /\
  macosx_sdk_specified darwin_host g1 = (Ok (Some false), g1).
Proof.
  intros g g1.
  assert (forall cc root,
            default_sysroot darwin_host cc = Ok root -> root <> "") as Hcc
    by (intros cc root [= <-]; discriminate).
  assert (macosx_sdk_specified darwin_host g = (Ok (Some false), g1)) as Hcall
    by (vm_compute; reflexivity).
  split; [by split|]. split; [vm_compute; reflexivity|].
  exact (macosx_sdk_specified_idempotent darwin_host g g1 _ Hcc Hcall).
Defined.

Lemma set_compiler_flags_consistent target nodist (g : Globals) :
  sdk_consistent g -> sdk_consistent (set_compiler_flags target nodist g).2.
Proof.
  intros Hinv.
  by destruct (set_compiler_flags_state target nodist g) as [-> | [v ->]].
Qed.

Lemma bind_sysroot_consistent (h : Host) (g : Globals) :
  sdk_consistent g -> sdk_consistent (bind_sysroot h g).2.
Proof.
  intros Hinv. rewrite bind_sysroot_state.
  destruct (MACOS h); [|done]. by apply macosx_sdk_root_consistent.
Qed.

(** X10: The SDK globals stay consistent under every routine that can write
    the module state: whenever [MACOS_SDK_SPECIFIED] is true, a non-empty
    root other than ['/'] is cached.  So a true answer of
    [macosx_sdk_specified] always comes with such a root. *)
Theorem sdk_globals_consistent (h : Host) (g : Globals) :
  sdk_consistent g ->
  sdk_consistent (macosx_sdk_root h g).2 /\
  sdk_consistent (macosx_sdk_specified h g).2 /\
  (forall filename std_dirs paths,
     sdk_consistent (find_file h filename std_dirs paths g).2) /\
  (forall result std_dirs paths,
     sdk_consistent (find_library_file h result std_dirs paths g).2) /\
  (forall target nodist,
     sdk_consistent (set_compiler_flags target nodist g).2) /\
  (forall g1, macosx_sdk_specified h g = (Ok (Some true), g1) ->
     exists root, MACOS_SDK_ROOT g1 = Some root /\ root <> "" /\ root <> "/").
Proof.
  intros Hinv.
  assert (sdk_consistent (macosx_sdk_specified h g).2) as Hspec.
  { destruct (macosx_sdk_specified_state h g) as [-> | ->]; [done|].
    by apply macosx_sdk_root_consistent. }
  split; [by apply macosx_sdk_root_consistent|]. split; [done|].
  split; [|split; [|split]].
  - intros. rewrite find_file_state. by apply bind_sysroot_consistent.
  - intros. rewrite find_library_file_state. by apply bind_sysroot_consistent.
  - intros. by apply set_compiler_flags_consistent.
  - intros g1 Hcall. rewrite Hcall in Hspec. cbn in Hspec. apply Hspec.
    rewrite macosx_sdk_specified_unfold in Hcall.
    destruct (MACOS_SDK_SPECIFIED g) as [[|]|] eqn:Hs;
      [by inversion Hcall; subst|..];
      (destruct (macosx_sdk_root h g) as [[root|e] g']; [|done];
       by inversion Hcall).
Qed.

Lemma sdk_globals_consistent_witness :
  let g := fresh [("CFLAGS", VStr "-isysroot /SDKs/MacOSX.sdk")] in
  sdk_consistent g /\
  sdk_consistent
    (find_file darwin_host "zlib.h" ["/usr/include"] ["/opt/lib/include"] g).2 /\
  exists root,
    MACOS_SDK_ROOT (macosx_sdk_specified darwin_host g).2 = Some root /\
    root <> "" /\ root <> "/".
Proof.
  intros g.
  assert (sdk_consistent g) as Hinv by (intros Hs; discriminate Hs).
  split; [exact Hinv|].
  destruct (sdk_globals_consistent darwin_host g Hinv)
    as (_ & _ & Hfind & _ & _ & Htrue).
  split; [apply Hfind|].
  apply Htrue. vm_compute. reflexivity.
Defined.

(** ** [sysroot_paths] and its pattern *)

Lemma sysroot_subdirs_isdir (h : Host) (sysroot : string) (subdirs : list string) :
  Forall (fun d => path_isdir h d = true) (sysroot_subdirs h sysroot subdirs) /\
  length (sysroot_subdirs h sysroot subdirs) <= length subdirs.
Proof.
  induction subdirs as [|subdir rest [IH1 IH2]]; cbn [sysroot_subdirs length].
  - split; [constructor|lia].
  - destruct (path_isdir h _) eqn:Hd; cbn [length].
    + split; [by constructor|lia].
    + split; [done|lia].
Qed.

Lemma sysroot_paths_state (h : Host) (make_vars subdirs : list string)
    (g : Globals) :
  (sysroot_paths h make_vars subdirs g).2 = g.
Proof.
  induction make_vars as [|v rest IH]; [done|].
  cbn [sysroot_paths]. unfold Py.bind, get_config_var, Py.lift.
  destruct (config_vars g !! v) as [[text|n]|]; cbn; try done.
  by destruct (sysroot_re.search_sysroot text).
Qed.

Lemma sysroot_paths_skip (h : Host) (skipped rest subdirs : list string)
    (g : Globals) :
  Forall (passed_over g) skipped ->
  sysroot_paths h (skipped ++ rest) subdirs g = sysroot_paths h rest subdirs g.
Proof.
  induction 1 as [|v skipped Hv _ IH]; [done|].
  cbn [app sysroot_paths]. unfold Py.bind at 1, get_config_var at 1.
  destruct Hv as [-> | (text & -> & Hs)]; [done|].
  unfold Py.bind, Py.lift. cbn. by rewrite Hs.
Qed.

(** X11: [sysroot_paths] never writes the module state; every path it returns
    is a directory of the file system, and there is at most one per
    sub-directory asked for. *)
Theorem sysroot_paths_sound (h : Host) (make_vars subdirs : list string)
    (g : Globals) (dirs : list string) :
  (sysroot_paths h make_vars subdirs g).1 = Ok dirs ->
  (sysroot_paths h make_vars subdirs g).2 = g /\
  Forall (fun d => path_isdir h d = true) dirs /\
  length dirs <= length subdirs.
Proof.
  intros Hrun. split; [apply sysroot_paths_state|]. revert Hrun.
  induction make_vars as [|v rest IH]; cbn [sysroot_paths].
  - intros [= <-]. split; [constructor|cbn; lia].
  - unfold Py.bind at 1, get_config_var at 1.
    destruct (config_vars g !! v) as [[text|n]|]; [|done|done].
    unfold Py.bind, Py.lift. cbn [Py.fspath].
    destruct (sysroot_re.search_sysroot text); [|done].
    intros [= <-]. apply sysroot_subdirs_isdir.
Qed.

Lemma sysroot_paths_sound_witness :
  let h := linux_host in
  let g := fresh [("CFLAGS", VStr "-O2 --sysroot=/opt/lib")] in
  (sysroot_paths h ["CC"; "CFLAGS"] ["/include"; "lib"] g).1
    = Ok ["/opt/lib/include"] /\
  Forall (fun d => path_isdir h d = true) ["/opt/lib/include"].
Proof.
  intros h g.
  assert ((sysroot_paths h ["CC"; "CFLAGS"] ["/include"; "lib"] g).1
          = Ok ["/opt/lib/include"]) as Hrun by (vm_compute; reflexivity).
  split; [exact Hrun|].
  exact (proj1 (proj2 (sysroot_paths_sound h _ _ g _ Hrun))).
Defined.



(** X13: When every variable before some point is unset or has no
    [--sysroot=] option, reaching the end of the list gives the empty
    result, and reaching a variable that holds an integer raises
    [TypeError]. *)
Theorem sysroot_paths_no_match (h : Host) (skipped : list string)
    (subdirs : list string) (g : Globals) :
  Forall (passed_over g) skipped ->
  sysroot_paths h skipped subdirs g = (Ok [], g) /\
  (forall var_name n rest,
     config_vars g !! var_name = Some (VInt n) ->
     sysroot_paths h (skipped ++ var_name :: rest) subdirs g
     = (Raise TypeError, g)).
Proof.
  intros Hskip. split.
  - rewrite <- (app_nil_r skipped).
    by rewrite (sysroot_paths_skip h skipped [] subdirs g Hskip).
  - intros v n rest Hv.
    rewrite (sysroot_paths_skip h skipped _ subdirs g Hskip).
    cbn [sysroot_paths]. unfold Py.bind, get_config_var, Py.lift.
    by rewrite Hv.
Qed.

Lemma sysroot_paths_no_match_witness :
  let g := fresh [("CFLAGS", VStr "-O2 -g"); ("HAVE_FORK", VInt 1)] in
  Forall (passed_over g) ["CC"; "CFLAGS"] /\
  sysroot_paths linux_host ["CC"; "CFLAGS"] ["include"] g = (Ok [], g) /\
  sysroot_paths linux_host ["CC"; "CFLAGS"; "HAVE_FORK"; "LDFLAGS"] ["include"] g
  = (Raise TypeError, g).
Proof.
  intros g.
  assert (Forall (passed_over g) ["CC"; "CFLAGS"]) as Hskip.
  { constructor; [|constructor; [|constructor]].
    - left. vm_compute. reflexivity.
    - right. exists "-O2 -g". split; vm_compute; reflexivity. }
  split; [exact Hskip|].
  destruct (sysroot_paths_no_match linux_host _ ["include"] g Hskip)
    as [Hend Hint].
  split; [exact Hend|].
  apply (Hint "HAVE_FORK" 1%Z ["LDFLAGS"]). vm_compute. reflexivity.
Defined.

Lemma free_of_app c a b :
  Text.free_of c (a +:+ b) = Text.free_of c a && Text.free_of c b.
Proof.
  induction a as [|x a IH]; [done|]. rewrite app_cons. cbn [Text.free_of].
  by rewrite IH, andb_assoc.
Qed.

Lemma split_at_free c p rest :
  Text.free_of c p = true ->
  Text.split_at c (p +:+ String c rest) = Some (p, rest).
Proof.
  induction p as [|x p IH]; intros Hp.
  - rewrite app_nil_l. cbn [Text.split_at]. by rewrite Ascii.eqb_refl.
  - cbn [Text.free_of] in Hp. apply andb_true_iff in Hp as [Hx Hp].
    rewrite app_cons. cbn [Text.split_at].
    apply negb_true_iff in Hx. rewrite Hx. by rewrite (IH Hp).
Qed.

Lemma rstrip_free c p :
  Text.free_of c p = true -> Str.rstrip c p = p.
Proof.
  induction p as [|x p IH]; [done|]. cbn [Text.free_of Str.rstrip].
  intros [Hx Hp]%andb_true_iff. rewrite (IH Hp).
  apply negb_true_iff in Hx. rewrite Hx. by destruct p.
Qed.

Lemma rstrip_snoc c s : Str.rstrip c (s +:+ String c "") = Str.rstrip c s.
Proof.
  induction s as [|x s IH].
  - rewrite app_nil_l. cbn [Str.rstrip]. by rewrite Ascii.eqb_refl.
  - rewrite app_cons. cbn [Str.rstrip]. by rewrite IH.
Qed.

Lemma lstrip_free c p : Text.free_of c p = true -> Text.lstrip c p = p.
Proof.
  destruct p as [|x p]; [done|]. cbn [Text.free_of Text.lstrip].
  intros [Hx _]%andb_true_iff. apply negb_true_iff in Hx. by rewrite Hx.
Qed.

Lemma strip_free c p : Text.free_of c p = true -> Text.strip c p = p.
Proof. intros Hp. unfold Text.strip. by rewrite rstrip_free, lstrip_free. Qed.

Lemma rstrip_cons_ne c a t :
  Str.rstrip c t <> "" -> Str.rstrip c (String a t) = String a (Str.rstrip c t).
Proof. intros Hne. cbn [Str.rstrip]. by destruct (Str.rstrip c t). Qed.

Lemma strip_quoted c p :
  Text.free_of c p = true -> p <> "" ->
  Text.strip c (String c (p +:+ String c "")) = p.
Proof.
  intros Hp Hne. unfold Text.strip.
  change (String c (p +:+ String c "")) with (String c p +:+ String c "").
  rewrite rstrip_snoc, rstrip_cons_ne by (by rewrite rstrip_free).
  rewrite (rstrip_free c p Hp). cbn [Text.lstrip].
  rewrite Ascii.eqb_refl. by apply lstrip_free.
Qed.

Ltac eqb_cases :=
  repeat (cbn [Str.strip_prefix];
          match goal with
          | |- context [Ascii.eqb ?a ?b] =>
              destruct (Ascii.eqb_spec a b) as [Heq|_];
              [first [discriminate Heq | (subst; try clear Heq)]
              | try reflexivity]
          end).

(** No match of the pattern starts inside a text without ['='] that is
    followed by the option. *)
Lemma sysroot_prefix_straddle b s :
  Text.free_of "=" b = true -> b <> "" ->
  Str.strip_prefix "--sysroot=" (b +:+ "--sysroot=" +:+ s) = None.
Proof.
  intros Hb Hne. destruct b as [|c1 b]; [done|]. clear Hne.
  do 9 (destruct b as [|? b];
        [rewrite !app_cons, app_nil_l; eqb_cases; fail|]).
  rewrite !app_cons. eqb_cases. by vm_compute in Hb.
Qed.

Lemma search_sysroot_here s g :
  sysroot_re.sysroot_at s = Some g -> sysroot_re.search_sysroot s = Some g.
Proof.
  intros H. destruct s as [|c s]; [by vm_compute in H|].
  cbn [sysroot_re.search_sysroot]. by rewrite H.
Qed.

(** After a text without ['='], the leftmost match is the one of the
    option that follows. *)
Lemma search_sysroot_after pre s g :
  Text.free_of "=" pre = true ->
  sysroot_re.sysroot_at ("--sysroot=" +:+ s) = Some g ->
  sysroot_re.search_sysroot (pre +:+ "--sysroot=" +:+ s) = Some g.
Proof.
  intros Hpre Hat. induction pre as [|c pre IH].
  - rewrite app_nil_l. by apply search_sysroot_here.
  - rewrite app_cons. cbn [sysroot_re.search_sysroot]. rewrite <- app_cons.
    unfold sysroot_re.sysroot_at at 1.
    rewrite (sysroot_prefix_straddle (String c pre) s Hpre) by done.
    apply IH. cbn [Text.free_of] in Hpre. by apply andb_true_iff in Hpre as [_ ?].
Qed.

(** X14: The two spellings of the option give the same directory: a path
    without quotes is found as it is when written between quotes (spaces
    allowed), and also when written bare, provided it has no space and
    ends at a space or at the end of the text. *)
Theorem sysroot_option_forms (pre path rest : string) :
  Text.free_of "=" pre = true ->
  path <> "" ->
  Text.free_of sysroot_re.quote path = true ->
  let q := String sysroot_re.quote "" in
  Text.strip sysroot_re.quote <$>
    sysroot_re.search_sysroot
      (pre +:+ "--sysroot=" +:+ q +:+ path +:+ q +:+ rest) = Some path /\
  (re.no_space path = true -> re.at_boundary rest = true ->
   Text.strip sysroot_re.quote <$>
     sysroot_re.search_sysroot (pre +:+ "--sysroot=" +:+ path +:+ rest)
   = Some path).
Proof.
  intros Hpre Hne Hq q. subst q. split.
  - rewrite (search_sysroot_after pre _ (String sysroot_re.quote
               (path +:+ String sysroot_re.quote ""))); [|done|].
    + cbn [fmap option_fmap option_map]. f_equal. by apply strip_quoted.
    + unfold sysroot_re.sysroot_at. rewrite strip_prefix_app.
      rewrite !app_cons, !app_nil_l. rewrite Ascii.eqb_refl.
      rewrite (split_at_free _ path rest Hq). by destruct path.
  - intros Hns Hb.
    rewrite (search_sysroot_after pre _ path); [|done|].
    + cbn [fmap option_fmap option_map]. f_equal. by apply strip_free.
    + unfold sysroot_re.sysroot_at. rewrite strip_prefix_app.
      destruct path as [|c path]; [done|]. rewrite app_cons.
      cbn [Text.free_of] in Hq. apply andb_true_iff in Hq as [Hc _].
      apply negb_true_iff in Hc. rewrite Hc.
      cbn [re.no_space] in Hns. apply andb_true_iff in Hns as [_ Hns].
      by rewrite (take_nonspace_app path rest Hns Hb).
Qed.

Lemma sysroot_option_forms_witness :
  let q := String sysroot_re.quote "" in
  (Text.free_of "=" "-O2 " = true /\ "/opt/sdk" <> "" /\
   Text.free_of sysroot_re.quote "/opt/sdk" = true /\
   re.no_space "/opt/sdk" = true /\ re.at_boundary " -g" = true) /\
  Text.strip sysroot_re.quote <$>
    sysroot_re.search_sysroot
      ("-O2 " +:+ "--sysroot=" +:+ q +:+ "/opt/sdk" +:+ q +:+ " -g")
  = Some "/opt/sdk" /\
  Text.strip sysroot_re.quote <$>
    sysroot_re.search_sysroot ("-O2 " +:+ "--sysroot=" +:+ "/opt/sdk" +:+ " -g")
  = Some "/opt/sdk".
Proof.
  intros q.
  assert (Text.free_of "=" "-O2 " = true) as Hpre by reflexivity.
  assert ("/opt/sdk" <> "") as Hne by discriminate.
  assert (Text.free_of sysroot_re.quote "/opt/sdk" = true) as Hq by reflexivity.
  assert (re.no_space "/opt/sdk" = true) as Hns by reflexivity.
  assert (re.at_boundary " -g" = true) as Hb by reflexivity.
  split; [by repeat split|].
  destruct (sysroot_option_forms "-O2 " "/opt/sdk" " -g" Hpre Hne Hq)
    as [Hquoted Hbare].
  split; [exact Hquoted | exact (Hbare Hns Hb)].
Defined.

(** ** [get_platform] and the platform flags *)

(** X15: The flags that compare the host platform with a name exclude one
    another, and each of them excludes [AIX] and [VXWORKS]. *)
Theorem platform_flags_exclusive (p : Process) :
  (platform.MS_WINDOWS p = true ->
     platform.CYGWIN p = false /\ platform.MACOS p = false /\
     platform.AIX p = false /\ platform.VXWORKS p = false) /\
  (platform.CYGWIN p = true ->
     platform.MS_WINDOWS p = false /\ platform.MACOS p = false /\
     platform.AIX p = false /\ platform.VXWORKS p = false) /\
  (platform.MACOS p = true ->
     platform.MS_WINDOWS p = false /\ platform.CYGWIN p = false /\
     platform.AIX p = false /\ platform.VXWORKS p = false).
Proof.
  unfold platform.MS_WINDOWS, platform.CYGWIN, platform.MACOS, platform.AIX,
    platform.VXWORKS.
  split; [|split]; intros H%String.eqb_eq; rewrite H; by repeat split.
Qed.

Lemma platform_flags_exclusive_witness :
  let p := {| environ := {[ "_PYTHON_HOST_PLATFORM" := "darwin" ]};
              sys_platform := "linux" |} in
  platform.MACOS p = true /\
  platform.MS_WINDOWS p = false /\ platform.CYGWIN p = false /\
  platform.AIX p = false /\ platform.VXWORKS p = false.
Proof.
  intros p.
  assert (platform.MACOS p = true) as Hmac by (vm_compute; reflexivity).
  split; [exact Hmac|].
  exact (proj2 (proj2 (platform_flags_exclusive p)) Hmac).
Defined.

(** X16: The override [_PYTHON_HOST_PLATFORM] is returned as it is, whatever
    [sys.platform] says.  Without it, every [osf1...] release string is
    reported as ['osf1']: the result starts with [osf1] only when it is
    exactly that, and reading the platform again from the result changes
    nothing. *)
Theorem get_platform_normal_form (p : Process) :
  (forall host, environ p !! "_PYTHON_HOST_PLATFORM" = Some host ->
     platform.get_platform p = host /\ platform.CROSS_COMPILING p = true) /\
  (environ p !! "_PYTHON_HOST_PLATFORM" = None ->
     platform.CROSS_COMPILING p = false /\
     (Str.startswith (platform.get_platform p) "osf1" = true ->
        platform.get_platform p = "osf1") /\
     platform.get_platform
       {| environ := environ p; sys_platform := platform.get_platform p |}
     = platform.get_platform p).
Proof.
  unfold platform.get_platform, platform.CROSS_COMPILING. split.
  - intros host ->. split; [done|]. by apply bool_decide_eq_true_2.
  - intros Hnone. cbn [environ sys_platform]. rewrite Hnone. split.
    + apply bool_decide_eq_false_2. by intros [? [=]].
    + destruct (Str.startswith (sys_platform p) "osf1") eqn:Hosf; [done|].
      rewrite Hosf. split; [by intros [=]|done].
Qed.

Lemma get_platform_normal_form_witness :
  let p := {| environ := ∅; sys_platform := "osf1V5.1" |} in
  environ p !! "_PYTHON_HOST_PLATFORM" = None /\
  platform.CROSS_COMPILING p = false /\
  platform.get_platform p = "osf1".
Proof.
  intros p.
  assert (environ p !! "_PYTHON_HOST_PLATFORM" = None) as Hnone by reflexivity.
  split; [exact Hnone|].
  destruct (proj2 (get_platform_normal_form p) Hnone) as (Hcross & Hosf & _).
  split; [exact Hcross|]. apply Hosf. reflexivity.
Defined.

(** ** [PyBuildExt.add] and [remove_disabled] *)

Lemma filter_all {A} (P : A -> Prop) `{!forall x, Decision (P x)} (l : list A) :
  (forall x, x ∈ l -> P x) -> filter P l = l.
Proof.
  induction l as [|x l IH]; intros HP; [done|].
  rewrite filter_cons_True by (apply HP, list_elem_of_here).
  f_equal. apply IH. intros y Hy. apply HP. by apply elem_of_cons; right.
Qed.

Lemma ext_map_None l k :
  (forall c, c ∈ l -> name c <> k) -> ext_map l !! k = None.
Proof.
  intros Hnone. pose proof (ext_map_lookup l k) as Hidx.
  destruct (ext_map l !! k) as [i|]; [|done].
  destruct Hidx as (c & Hc & Hn & _).
  destruct (Hnone c); [|done]. apply list_elem_of_lookup. by exists i.
Qed.

(** The list the method leaves, for a list in which no name is disabled:
    a trailing [_ctypes] stays where it is. *)
Lemma remove_disabled_fixed (disabled : list string) (self : PyBuildExt) :
  (forall e, e ∈ extensions self -> name e ∉ disabled) ->
  ((exists l c, extensions self = l ++ [c] /\ name c = "_ctypes") \/
   (forall e, e ∈ extensions self -> name e <> "_ctypes")) ->
  remove_disabled disabled self = (Ok tt, self).
Proof.
  intros Hclean Hshape. rewrite remove_disabled_eq. cbv zeta.
  rewrite (filter_all _ _ Hclean).
  destruct Hshape as [(l & c & Hl & Hn) | Hnone].
  - rewrite Hl, ext_map_snoc, <- Hn, lookup_insert_eq. unfold pop.
    rewrite list_lookup_middle by done.
    rewrite delete_take_drop, take_app_length, drop_ge
      by (rewrite length_app; cbn; lia).
    rewrite app_nil_r, <- Hl. by destruct self.
  - rewrite (ext_map_None _ _ Hnone). by destruct self.
Qed.

(** X17: [remove_disabled] is idempotent: run on its own result it changes
    nothing. *)
Theorem remove_disabled_idempotent (disabled : list string)
    (self : PyBuildExt) :
  exists self',
    remove_disabled disabled self = (Ok tt, self') /\
    remove_disabled disabled self' = (Ok tt, self').
Proof.
  set (kept := filter (fun ext => name ext ∉ disabled) (extensions self)).
  assert (forall e, e ∈ kept -> name e ∉ disabled) as Hkept.
  { intros e He. by apply list_elem_of_filter in He as [? _]. }
  pose proof (remove_disabled_shape disabled self) as Hshape.
  cbv zeta in Hshape. fold kept in Hshape.
  destruct Hshape as [(pre & c & post & Hk & Hn & Hlast & ->) | [Hnone ->]];
    (eexists; split; [reflexivity|]); apply remove_disabled_fixed; cbn.
  - intros e He. apply Hkept. rewrite Hk.
    rewrite !elem_of_app, list_elem_of_singleton in He.
    rewrite elem_of_app, elem_of_cons. tauto.
  - left. exists (pre ++ post), c. by rewrite (assoc_L (++)).
  - done.
  - by right.
Qed.

(** X18: [remove_disabled] only drops the descriptors with a disabled name and
    reorders: what it leaves is a permutation of the descriptors of the
    input whose name is not disabled, so none of them is lost or
    repeated. *)
Theorem remove_disabled_permutation (disabled : list string)
    (self : PyBuildExt) :
  exists self',
    remove_disabled disabled self = (Ok tt, self') /\
    extensions self'
      ≡ₚ filter (fun ext => name ext ∉ disabled) (extensions self) /\
    length (extensions self') <= length (extensions self) /\
    (forall e, e ∈ extensions self' <->
               e ∈ extensions self /\ name e ∉ disabled).
Proof.
  set (kept := filter (fun ext => name ext ∉ disabled) (extensions self)).
  pose proof (remove_disabled_shape disabled self) as Hshape.
  cbv zeta in Hshape. fold kept in Hshape.
  assert (exists self',
            remove_disabled disabled self = (Ok tt, self') /\
            extensions self' ≡ₚ kept) as (self' & Hrun & Hperm).
  { destruct Hshape as [(pre & c & post & Hk & Hn & Hlast & ->) | [Hnone ->]];
      (eexists; split; [reflexivity|]); cbn; [|done].
    rewrite Hk. apply Permutation_app_head. symmetry.
    apply Permutation_cons_append. }
  exists self'. split; [done|]. split; [done|]. split.
  - rewrite Hperm. apply length_filter.
  - intros e. rewrite Hperm. subst kept. by rewrite list_elem_of_filter, (comm and).
Qed.

(** X19: An extension added under a disabled name does not survive
    [remove_disabled]: the build list is the one obtained without it.
    An extension added under the name [_ctypes] (not disabled) ends up
    last. *)
Theorem add_then_remove_disabled (disabled : list string) (e : Extension)
    (self : PyBuildExt) :
  let added := (add e self).2 in
  (add e self).1 = Ok tt /\
  extensions added = extensions self ++ [e] /\
  (name e ∈ disabled ->
     extensions (remove_disabled disabled added).2
     = extensions (remove_disabled disabled self).2) /\
  (name e ∉ disabled -> name e = "_ctypes" ->
     last (extensions (remove_disabled disabled added).2) = Some e).
Proof.
  intros added. subst added. unfold add, Py.modify. cbn [fst snd].
  split; [done|]. split; [done|]. split.
  - intros Hdis. rewrite !remove_disabled_eq. cbv zeta. cbn [extensions set_extensions_attr].
    rewrite filter_app, filter_cons_False, filter_nil, app_nil_r by (by intros []).
    pose proof (ext_map_lookup
                  (filter (fun ext => name ext ∉ disabled) (extensions self))
                  "_ctypes") as Hidx.
    destruct (ext_map _ !! "_ctypes") as [i|]; [|done].
    destruct Hidx as (c & Hc & _). unfold pop. by rewrite Hc.
  - intros Hdis Hn. rewrite remove_disabled_eq. cbv zeta.
    cbn [extensions set_extensions_attr].
    rewrite filter_app, filter_cons_True, filter_nil by done.
    rewrite ext_map_snoc, Hn, lookup_insert_eq. unfold pop.
    rewrite list_lookup_middle by done.
    rewrite delete_take_drop, take_app_length, drop_ge
      by (rewrite length_app; cbn; lia).
    cbn. by rewrite app_nil_r, last_snoc.
Qed.

Lemma add_then_remove_disabled_witness :
  let self := build [ext "_socket"; ext "zlib"] in
  ("_tkinter" ∈ ["_tkinter"] /\
   extensions (remove_disabled ["_tkinter"] (add (ext "_tkinter") self).2).2
   = extensions (remove_disabled ["_tkinter"] self).2) /\
  (("_ctypes" ∉ ["_tkinter"]) /\
   last (extensions
           (remove_disabled ["_tkinter"]
              (add (ext "_ctypes") (add (ext "_socket") self).2).2).2)
   = Some (ext "_ctypes")).
Proof.
  intros self. split.
  - assert ("_tkinter" ∈ ["_tkinter"]) as Hdis by apply list_elem_of_here.
    split; [exact Hdis|].
    exact (proj1 (proj2 (proj2
             (add_then_remove_disabled ["_tkinter"] (ext "_tkinter") self))) Hdis).
  - assert ("_ctypes" ∉ ["_tkinter"]) as Hdis.
    { apply (bool_decide_unpack _). vm_compute. exact I. }
    split; [exact Hdis|].
    exact (proj2 (proj2 (proj2
             (add_then_remove_disabled ["_tkinter"] (ext "_ctypes")
                (add (ext "_socket") self).2))) Hdis eq_refl).
Defined.

(** ** [find_file]: repeated and extended lookups *)

Lemma bind_sysroot_again (h : Host) (g g1 : Globals) (sysroot : option string) :
  (forall cc root, default_sysroot h cc = Ok root -> root <> "") ->
  bind_sysroot h g = (Ok sysroot, g1) ->
  bind_sysroot h g1 = (Ok sysroot, g1).
Proof.
  intros Hcc. unfold bind_sysroot, Py.bind. destruct (MACOS h).
  - destruct (macosx_sdk_root h g) as [[root|e] g'] eqn:Hroot; [|done].
    intros [= <- <-].
    pose proof (macosx_sdk_root_nonempty h g g' root Hcc Hroot) as Hne.
    apply macosx_sdk_root_Ok in Hroot as [Hcache _].
    by rewrite (macosx_sdk_root_cached h g' root Hcache Hne).
  - by intros [= <- <-].
Qed.

Lemma find_file_inv (h : Host) filename std_dirs paths (g g1 : Globals) res :
  find_file h filename std_dirs paths g = (Ok res, g1) ->
  exists sysroot, bind_sysroot h g = (Ok sysroot, g1).
Proof.
  unfold find_file, Py.bind.
  destruct (bind_sysroot h g) as [[sysroot|e] g']; [|done].
  intros Hrun. exists sysroot. f_equal.
  destruct (first_hit h sysroot filename std_dirs);
    [|destruct (first_hit h sysroot filename paths)]; by inversion Hrun.
Qed.

Lemma find_file_total (h : Host) filename std_dirs paths (g g1 : Globals)
    sysroot :
  bind_sysroot h g = (Ok sysroot, g1) ->
  exists res, find_file h filename std_dirs paths g = (Ok res, g1).
Proof.
  intros Hroot. unfold find_file, Py.bind. rewrite Hroot.
  destruct (first_hit h sysroot filename std_dirs);
    [|destruct (first_hit h sysroot filename paths)]; by eexists.
Qed.

(** X20: After one lookup has returned, the SDK root is settled: the same
    lookup gives the same answer again, any other lookup returns too, and
    none of them changes the module state, so the compiler is not run
    again. *)
Theorem find_file_again (h : Host) (filename : string)
    (std_dirs paths : list string) (g g1 : Globals)
    (res : option (list string)) :
  (forall cc root, default_sysroot h cc = Ok root -> root <> "") ->
  find_file h filename std_dirs paths g = (Ok res, g1) ->
  find_file h filename std_dirs paths g1 = (Ok res, g1) /\
  (forall filename' std_dirs' paths',
     exists res', find_file h filename' std_dirs' paths' g1 = (Ok res', g1)).
Proof.
  intros Hcc Hrun.
  destruct (find_file_inv _ _ _ _ _ _ _ Hrun) as [sysroot Hroot].
  pose proof (bind_sysroot_again h g g1 sysroot Hcc Hroot) as Hagain.
  split; [|intros; by eapply find_file_total].
  revert Hrun. unfold find_file, Py.bind. by rewrite Hroot, Hagain.
Qed.

Lemma find_file_again_witness :
  let g := fresh [("CFLAGS", VStr "-O2"); ("CC", VStr "clang")] in
  let g1 := (find_file darwin_host "zlib.h" ["/usr/include"] [] g).2 in
  ((forall cc root,
      default_sysroot darwin_host cc = Ok root -> root <> "") /\
   find_file darwin_host "zlib.h" ["/usr/include"] [] g = (Ok (Some []), g1)) /\
  compiler_runs g1 = [Some (VStr "clang")] /\
  find_file darwin_host "zlib.h" ["/usr/include"] [] g1 = (Ok (Some []), g1).
Proof.
  intros g g1.
  assert (forall cc root,
            default_sysroot darwin_host cc = Ok root -> root <> "") as Hcc
    by (intros cc root [= <-]; discriminate).
  assert (find_file darwin_host "zlib.h" ["/usr/include"] [] g
          = (Ok (Some []), g1)) as Hrun by (vm_compute; reflexivity).
  split; [by split|]. split; [vm_compute; reflexivity|].
  exact (proj1 (find_file_again darwin_host _ _ _ g g1 _ Hcc Hrun)).
Defined.

(** X21: Off macOS the lookup reads the file system only: it never raises,
    leaves the module state alone, and its answer does not depend on the
    state. *)
Theorem find_file_off_macos (h : Host) (filename : string)
    (std_dirs paths : list string) :
  MACOS h = false ->
  exists res, forall g,
    find_file h filename std_dirs paths g = (Ok res, g).
Proof.
  intros Hmac. unfold find_file, bind_sysroot, Py.bind. rewrite Hmac. cbn.
  destruct (first_hit h None filename std_dirs);
    [|destruct (first_hit h None filename paths)]; by eexists.
Qed.

Lemma find_file_off_macos_witness :
  MACOS linux_host = false /\
  exists res, forall g,
    find_file linux_host "foo.h" ["/usr/include"] ["/opt/lib/include"] g
    = (Ok res, g).
Proof.
  assert (MACOS linux_host = false) as Hmac by reflexivity.
  split; [exact Hmac|].
  exact (find_file_off_macos linux_host "foo.h" ["/usr/include"]
           ["/opt/lib/include"] Hmac).
Defined.

Lemma first_hit_app_Some (h : Host) sysroot filename dirs more d :
  first_hit h sysroot filename dirs = Some d ->
  first_hit h sysroot filename (dirs ++ more) = Some d.
Proof.
  induction dirs as [|x dirs IH]; [done|]. cbn [first_hit app].
  by destruct (path_exists h (probe h sysroot filename x)).
Qed.

(** X22: A found file stays found where it was when more directories are
    appended to the lists: extra additional directories do not change an
    answer that is not [None], and extra standard directories do not
    change the answer [[]]. *)
Theorem find_file_more_dirs (h : Host) (filename : string)
    (std_dirs paths more : list string) (g : Globals) :
  (forall dirs, (find_file h filename std_dirs paths g).1 = Ok (Some dirs) ->
     find_file h filename std_dirs (paths ++ more) g
     = find_file h filename std_dirs paths g) /\
  ((find_file h filename std_dirs paths g).1 = Ok (Some []) ->
     forall paths',
       find_file h filename (std_dirs ++ more) paths' g
       = find_file h filename std_dirs paths g).
Proof.
  unfold find_file, Py.bind.
  destruct (bind_sysroot h g) as [[sysroot|e] g']; [|by split].
  destruct (first_hit h sysroot filename std_dirs) as [d0|] eqn:Hstd.
  - split; [done|]. intros _ paths'.
    by rewrite (first_hit_app_Some _ _ _ _ more _ Hstd).
  - destruct (first_hit h sysroot filename paths) as [d1|] eqn:Hp.
    + split; [|done]. intros dirs _.
      by rewrite (first_hit_app_Some _ _ _ _ more _ Hp).
    + by split.
Qed.

Lemma find_file_more_dirs_witness :
  let g := fresh [] in
  (find_file linux_host "foo.h" ["/usr/include"] ["/opt/lib/include"] g).1
    = Ok (Some ["/opt/lib/include"]) /\
  find_file linux_host "foo.h" ["/usr/include"]
    (["/opt/lib/include"] ++ ["/usr/local/include"]) g
  = find_file linux_host "foo.h" ["/usr/include"] ["/opt/lib/include"] g.
Proof.
  intros g.
  assert ((find_file linux_host "foo.h" ["/usr/include"]
             ["/opt/lib/include"] g).1 = Ok (Some ["/opt/lib/include"]))
    as Hrun by (vm_compute; reflexivity).
  split; [exact Hrun|].
  exact (proj1 (find_file_more_dirs linux_host "foo.h" ["/usr/include"]
                  ["/opt/lib/include"] ["/usr/local/include"] g) _ Hrun).
Defined.

(** ** [find_library_file]: separators, the root directory, and the way
    back from a joined path *)

Lemma rstrip_no_trailing c s : Str.ends_with_char c (Str.rstrip c s) = false.
Proof.
  induction s as [|a t IH]; [done|]. cbn [Str.rstrip].
  destruct (Str.rstrip c t) as [|b t'] eqn:Ht.
  - destruct (Ascii.eqb a c) eqn:Ha; [done|]. cbn [Str.ends_with_char]. done.
  - cbn [Str.ends_with_char] in *. done.
Qed.

Lemma rstrip_fixed c s : Str.ends_with_char c s = false -> Str.rstrip c s = s.
Proof.
  induction s as [|a t IH]; [done|]. cbn [Str.ends_with_char Str.rstrip].
  destruct t as [|b t'].
  - intros ->. done.
  - intros Ht. by rewrite (IH Ht).
Qed.

Lemma rstrip_all_char c s : Str.all_char c s = true -> Str.rstrip c s = "".
Proof.
  induction s as [|a t IH]; [done|]. cbn [Str.all_char Str.rstrip].
  intros [Ha Ht]%andb_true_iff. by rewrite (IH Ht), Ha.
Qed.

Lemma all_char_ends c s :
  Str.all_char c s = true -> s <> "" -> Str.ends_with_char c s = true.
Proof.
  induction s as [|a t IH]; [done|]. cbn [Str.all_char Str.ends_with_char].
  intros [Ha Ht]%andb_true_iff _. destruct t as [|b t']; [done|].
  by apply IH.
Qed.

Lemma all_char_snoc c s : Str.all_char c (s +:+ String c "") = Str.all_char c s.
Proof.
  induction s as [|a t IH].
  - rewrite app_nil_l. cbn [Str.all_char]. by rewrite Ascii.eqb_refl.
  - rewrite app_cons. cbn [Str.all_char]. by rewrite IH.
Qed.

Lemma upto_last_free c f : Text.free_of c f = true -> Str.upto_last c f = "".
Proof.
  induction f as [|a t IH]; [done|]. cbn [Text.free_of Str.upto_last].
  intros [Ha Ht]%andb_true_iff. apply negb_true_iff in Ha.
  by rewrite (IH Ht), Ha.
Qed.

Lemma upto_last_app c a f :
  Text.free_of c f = true ->
  Str.upto_last c (a +:+ String c f) = a +:+ String c "".
Proof.
  intros Hf. induction a as [|x a IH].
  - rewrite !app_nil_l. cbn [Str.upto_last].
    by rewrite (upto_last_free c f Hf), Ascii.eqb_refl.
  - rewrite !app_cons. cbn [Str.upto_last]. rewrite IH. by destruct a.
Qed.

(** The directory of [p/f] is [p], for a non-empty [p] without a trailing
    separator and a base name [f] without separators. *)
Lemma dirname_join (p f : string) :
  p <> "" -> Str.ends_with_char posixpath.sep p = false ->
  Text.free_of posixpath.sep f = true ->
  posixpath.join p [f] = p +:+ String posixpath.sep f /\
  posixpath.dirname (posixpath.join p [f]) = p.
Proof.
  intros Hne Hend Hf.
  assert (posixpath.join p [f] = p +:+ String posixpath.sep f) as ->.
  { unfold posixpath.join, posixpath.join2. cbn [fold_left].
    assert (Str.startswith f "/" = false) as ->.
    { destruct f as [|c f]; [done|]. cbn [Text.free_of] in Hf.
      apply andb_true_iff in Hf as [Hc _]. apply negb_true_iff in Hc.
      unfold Str.startswith. cbn [Str.strip_prefix].
      rewrite Ascii.eqb_sym. fold posixpath.sep. by rewrite Hc. }
    rewrite Hend. destruct (String.eqb_spec p "") as [?|_]; done. }
  split; [done|]. unfold posixpath.dirname.
  rewrite (upto_last_app _ p f Hf), all_char_snoc.
  assert (Str.all_char posixpath.sep p = false) as ->.
  { destruct (Str.all_char posixpath.sep p) eqn:Hall; [|done].
    by rewrite (all_char_ends _ _ Hall Hne) in Hend. }
  assert (String.eqb (p +:+ String posixpath.sep "") "" = false) as ->
    by (by destruct p).
  cbn [negb andb]. by rewrite rstrip_snoc, rstrip_fixed.
Qed.

Lemma dir_matches_eq (h : Host) sysroot (p : string) :
  dir_matches h sysroot p p = true.
Proof.
  unfold dir_matches. rewrite String.eqb_refl.
  by destruct sysroot as [root|]; [destruct (is_macosx_sdk_path h p);
    [destruct (String.eqb _ p)|]|].
Qed.

(** X23: The way back from a joined path: a library found at [p/f], where [p]
    is an entry of either list without its trailing separators (and is
    not empty) and [f] is a base name, is attributed to a directory and
    never trips the assertion; for a standard entry the answer is [[]]. *)
Theorem find_library_file_of_join (h : Host) (g g1 : Globals)
    (sysroot : option string) (d f : string) (std_dirs paths : list string) :
  bind_sysroot h g = (Ok sysroot, g1) ->
  d ∈ std_dirs ++ paths ->
  Str.rstrip posixpath.sep d <> "" ->
  Text.free_of posixpath.sep f = true ->
  let result := posixpath.join (Str.rstrip posixpath.sep d) [f] in
  posixpath.dirname result = Str.rstrip posixpath.sep d /\
  exists dirs,
    find_library_file h result std_dirs paths g = (Ok dirs, g1) /\
    (d ∈ std_dirs -> dirs = []).
Proof.
  intros Hroot Hd Hne Hf result. subst result.
  destruct (dirname_join (Str.rstrip posixpath.sep d) f Hne
              (rstrip_no_trailing _ _) Hf) as [_ Hdir].
  split; [done|].
  unfold find_library_file, Py.bind. rewrite Hroot, Hdir.
  assert (forall l, d ∈ l ->
            first_match h sysroot (Str.rstrip posixpath.sep d) l <> None)
    as Hfound.
  { intros l Hl Hnone. rewrite first_match_None in Hnone.
    specialize (Hnone d Hl). by rewrite dir_matches_eq in Hnone. }
  destruct (first_match h sysroot _ std_dirs) as [q|] eqn:Hstd.
  - by exists [].
  - destruct (first_match h sysroot _ paths) as [q|] eqn:Hp.
    + exists [q]. split; [done|]. intros Hin. by destruct (Hfound _ Hin).
    + apply elem_of_app in Hd as [Hin|Hin]; by destruct (Hfound _ Hin).
Qed.

Lemma find_library_file_of_join_witness :
  let g := fresh [] in
  (bind_sysroot linux_host g = (Ok None, g) /\
   "/opt/lib//" ∈ ["/usr/lib/"] ++ ["/opt/lib//"] /\
   Str.rstrip posixpath.sep "/opt/lib//" <> "" /\
   Text.free_of posixpath.sep "libfoo.so" = true) /\
  posixpath.join (Str.rstrip posixpath.sep "/opt/lib//") ["libfoo.so"]
    = "/opt/lib/libfoo.so" /\
  exists dirs,
    find_library_file linux_host "/opt/lib/libfoo.so" ["/usr/lib/"]
      ["/opt/lib//"] g = (Ok dirs, g).
Proof.
  intros g.
  assert (bind_sysroot linux_host g = (Ok None, g)) as Hroot by reflexivity.
  assert ("/opt/lib//" ∈ ["/usr/lib/"] ++ ["/opt/lib//"]) as Hd.
  { apply (bool_decide_unpack _). vm_compute. exact I. }
  assert (Str.rstrip posixpath.sep "/opt/lib//" <> "") as Hne by discriminate.
  assert (Text.free_of posixpath.sep "libfoo.so" = true) as Hf by reflexivity.
  split; [by repeat split|]. split; [reflexivity|].
  destruct (find_library_file_of_join linux_host g g None "/opt/lib//"
              "libfoo.so" ["/usr/lib/"] ["/opt/lib//"] Hroot Hd Hne Hf)
    as (_ & dirs & Hrun & _).
  by exists dirs.
Defined.

(** X24: The root directory is never matched off macOS: an entry made of
    separators only is compared as the empty string, so a library whose
    directory is not empty, one directly under ['/'] included, trips the
    assertion when the lists hold nothing but such entries. *)
Theorem find_library_file_root_entries (h : Host) (g : Globals)
    (result : string) (std_dirs paths : list string) :
  MACOS h = false ->
  Forall (fun p => Str.all_char posixpath.sep p = true) (std_dirs ++ paths) ->
  posixpath.dirname result <> "" ->
  find_library_file h result std_dirs paths g = (Raise AssertionError, g).
Proof.
  intros Hmac Hall Hdir. unfold find_library_file, bind_sysroot, Py.bind.
  rewrite Hmac. cbn [Py.ret].
  assert (forall l, Forall (fun p => Str.all_char posixpath.sep p = true) l ->
            first_match h None (posixpath.dirname result) l = None) as Hnone.
  { intros l Hl. apply first_match_None. intros p Hp.
    rewrite Forall_forall in Hl. rewrite (rstrip_all_char _ _ (Hl p Hp)).
    unfold dir_matches. apply String.eqb_neq. congruence. }
  apply Forall_app in Hall as [Hstd Hpaths].
  by rewrite (Hnone _ Hstd), (Hnone _ Hpaths).
Qed.

Lemma find_library_file_root_entries_witness :
  (MACOS linux_host = false /\
   Forall (fun p => Str.all_char posixpath.sep p = true) (["/"] ++ ["//"]) /\
   posixpath.dirname "/libz.so" <> "") /\
  find_library_file linux_host "/libz.so" ["/"] ["//"] (fresh [])
  = (Raise AssertionError, fresh []).
Proof.
  assert (MACOS linux_host = false) as Hmac by reflexivity.
  assert (Forall (fun p => Str.all_char posixpath.sep p = true)
            (["/"] ++ ["//"])) as Hall by (repeat constructor).
  assert (posixpath.dirname "/libz.so" <> "") as Hdir by discriminate.
  split; [by repeat split|].
  exact (find_library_file_root_entries linux_host (fresh []) "/libz.so"
           ["/"] ["//"] Hmac Hall Hdir).
Defined.

(** X25: What is returned names no standard directory and has no trailing
    separator: it is the empty list, or the one-element list of an
    additional entry stripped of its trailing separators. *)
Theorem find_library_file_answer (h : Host) (g g1 : Globals)
    (result : string) (std_dirs paths dirs : list string) :
  find_library_file h result std_dirs paths g = (Ok dirs, g1) ->
  dirs = [] \/
  exists q, q ∈ paths /\ dirs = [Str.rstrip posixpath.sep q] /\
    Str.ends_with_char posixpath.sep (Str.rstrip posixpath.sep q) = false.
Proof.
  unfold find_library_file, Py.bind.
  destruct (bind_sysroot h g) as [[sysroot|e] g']; [|done].
  destruct (first_match h sysroot _ std_dirs) as [q0|].
  - intros [= <- _]. by left.
  - destruct (first_match h sysroot _ paths) as [q1|] eqn:Hp; [|done].
    intros [= <- _]. right.
    apply first_match_elem in Hp as (q & Hq & -> & _).
    exists q. split; [done|]. split; [done|]. apply rstrip_no_trailing.
Qed.

Lemma find_library_file_answer_witness :
  find_library_file linux_host "/opt/lib/libfoo.so" ["/usr/lib/"]
    ["/opt/lib//"] (fresh []) = (Ok ["/opt/lib"], fresh []) /\
  (["/opt/lib"] = [] \/
   exists q, q ∈ ["/opt/lib//"] /\ ["/opt/lib"] = [Str.rstrip posixpath.sep q] /\
     Str.ends_with_char posixpath.sep (Str.rstrip posixpath.sep q) = false).
Proof.
  assert (find_library_file linux_host "/opt/lib/libfoo.so" ["/usr/lib/"]
            ["/opt/lib//"] (fresh []) = (Ok ["/opt/lib"], fresh [])) as Hrun
    by (vm_compute; reflexivity).
  split; [exact Hrun|].
  exact (find_library_file_answer linux_host _ _ _ _ _ _ Hrun).
Defined.
